(** * YKK emergency response poll: phone handling, poll window, stores, settings

    A shallow embedding of [ykk_emergency_response.py].  Python [str] values
    are modelled by [string], read as sequences of code points below 256;
    the three SQLite tables are modelled by their rows; [st.session_state]
    is modelled by the fields the functions read. *)

From Stdlib Require Import ZArith Lia List String Ascii Bool Arith DecimalString Permutation.
From stdpp Require Import base option gmap strings.
Import ListNotations.

Local Open Scope string_scope.
Local Arguments String.append !_ _ : simpl nomatch.

(** ** Python string primitives *)

Module PyStr.

(** [str.isspace] on one code point below 256, as [str.strip()] uses it. *)
Definition isspace (c : ascii) : bool :=
  let n := nat_of_ascii c in
  (((9 <=? n) && (n <=? 13)) || ((28 <=? n) && (n <=? 32))
   || (n =? 133) || (n =? 160))%nat.

Fixpoint lstrip (s : string) : string :=
  match s with
  | String c t => if isspace c then lstrip t else s
  | EmptyString => EmptyString
  end.

Fixpoint rstrip (s : string) : string :=
  match s with
  | String c t =>
      match rstrip t with
      | EmptyString => if isspace c then EmptyString else String c EmptyString
      | t' => String c t'
      end
  | EmptyString => EmptyString
  end.

(** [s.strip()] *)
Definition strip (s : string) : string := rstrip (lstrip s).

(** [s.replace(c, "")] for a one-character [c] *)
Fixpoint remove (c : ascii) (s : string) : string :=
  match s with
  | String x t => if Ascii.eqb x c then remove c t else String x (remove c t)
  | EmptyString => EmptyString
  end.

(** [s.startswith(p)] *)
Definition startswith (s p : string) : bool := String.prefix p s.

(** [s[n:]] *)
Fixpoint slice_from (n : nat) (s : string) : string :=
  match n, s with
  | O, _ => s
  | S n', String _ t => slice_from n' t
  | S _, EmptyString => EmptyString
  end.

(** [len(s)] *)
Definition len (s : string) : nat := String.length s.

End PyStr.

(** ** The fragment of Python [re] used by the two phone patterns *)

Module Re.

Inductive regex : Type :=
| Eps                                (* empty pattern *)
| Lit (c : ascii)                    (* one literal character *)
| Range (lo hi : ascii)              (* [lo-hi] *)
| Cat (r1 r2 : regex)                (* r1 r2 *)
| Alt (r1 r2 : regex)                (* r1|r2 *)
| Opt (r : regex)                    (* r? *)
| Rep (r : regex) (lo hi : nat)      (* r{lo,hi} *)
| Bol                                (* ^ *)
| Eol.                               (* $ *)

Definition in_range (lo hi c : ascii) : bool :=
  ((nat_of_ascii lo <=? nat_of_ascii c) && (nat_of_ascii c <=? nat_of_ascii hi))%nat.

(** [$] without MULTILINE: at the end of the string, or just before a
    newline that is the last character. *)
Definition at_end (s : string) : bool :=
  match s with
  | EmptyString => true
  | String c EmptyString => Ascii.eqb c "010"%char
  | _ => false
  end.

(** Backtracking matcher.  [total] is the length of the whole subject (so
    that [^] can tell the start), [s] what is left of it, [k] what must
    hold of the rest once [r] has matched. *)
Fixpoint rmatch (total : nat) (r : regex) (s : string) (k : string -> bool) : bool :=
  match r with
  | Eps => k s
  | Lit c =>
      match s with String x t => Ascii.eqb x c && k t | EmptyString => false end
  | Range lo hi =>
      match s with String x t => in_range lo hi x && k t | EmptyString => false end
  | Cat r1 r2 => rmatch total r1 s (fun s1 => rmatch total r2 s1 k)
  | Alt r1 r2 => rmatch total r1 s k || rmatch total r2 s k
  | Opt r1 => rmatch total r1 s k || k s
  | Rep r1 lo hi =>
      (fix rep (lo hi : nat) (s : string) {struct hi} : bool :=
         match hi with
         | O => (lo =? 0)%nat && k s
         | S hi' =>
             rmatch total r1 s (fun s1 => rep (Nat.pred lo) hi' s1)
             || ((lo =? 0)%nat && k s)
         end) lo hi s
  | Bol => (String.length s =? total)%nat && k s
  | Eol => at_end s && k s
  end.

(** [re.match(pattern, s) is not None]: the pattern must match at the
    start of [s]; it need not reach the end. *)
Definition re_match (pattern : regex) (s : string) : bool :=
  rmatch (String.length s) pattern s (fun _ => true).

(** A run of literal characters. *)
Fixpoint lits (s : string) : regex :=
  match s with
  | EmptyString => Eps
  | String c EmptyString => Lit c
  | String c t => Cat (Lit c) (lits t)
  end.

(** [n] successive steps of [R]. *)
Fixpoint iter (n : nat) (R : string -> string -> Prop) (s s' : string) : Prop :=
  match n with
  | O => s' = s
  | S n' => exists m, R s m /\ iter n' R m s'
  end.

(** [den total r s s']: [r] can match a prefix of [s] and leave [s']. *)
Fixpoint den (total : nat) (r : regex) (s s' : string) : Prop :=
  match r with
  | Eps => s' = s
  | Lit c => s = String c s'
  | Range lo hi => exists x, in_range lo hi x = true /\ s = String x s'
  | Cat r1 r2 => exists m, den total r1 s m /\ den total r2 m s'
  | Alt r1 r2 => den total r1 s s' \/ den total r2 s s'
  | Opt r1 => den total r1 s s' \/ s' = s
  | Rep r1 lo hi => exists n, (lo <= n <= hi)%nat /\ iter n (den total r1) s s'
  | Bol => s' = s /\ String.length s = total
  | Eol => s' = s /\ at_end s = true
  end.

End Re.

(** ** Helper functions of the application *)

Definition DEFAULT_COL_PHONE : string := "Phone".
Definition DEFAULT_TIMEZONE : string := "Asia/Karachi".
Definition DEFAULT_PHONE_VALIDATION_MODE : string := "flexible".
Definition DEFAULT_TIME_FORMAT : string := "12".

(** [r'^(\+92|92|0)?3[0-9]{9}$'] *)
Definition pattern_strict : Re.regex :=
  Re.Cat Re.Bol
    (Re.Cat (Re.Opt (Re.Alt (Re.lits "+92") (Re.Alt (Re.lits "92") (Re.lits "0"))))
       (Re.Cat (Re.Lit "3")
          (Re.Cat (Re.Rep (Re.Range "0" "9") 9 9) Re.Eol))).

(** [r'^\+?[0-9]{7,15}$'] *)
Definition pattern_flexible : Re.regex :=
  Re.Cat Re.Bol
    (Re.Cat (Re.Opt (Re.Lit "+"))
       (Re.Cat (Re.Rep (Re.Range "0" "9") 7 15) Re.Eol)).

(** [patterns.get(mode, patterns["flexible"])] *)
Definition patterns_get (mode : string) : Re.regex :=
  if String.eqb mode "strict" then pattern_strict
  else if String.eqb mode "flexible" then pattern_flexible
  else pattern_flexible.

Definition validate_phone (phone mode : string) : bool :=
  Re.re_match (patterns_get mode) phone.

Definition clean_phone (phone : string) : string :=
  PyStr.remove ")" (PyStr.remove "(" (PyStr.remove "-" (PyStr.remove " " (PyStr.strip phone)))).

Definition normalize_for_comparison (phone : string) : string :=
  let phone := clean_phone phone in
  if PyStr.startswith phone "+92" then PyStr.slice_from 3 phone
  else if PyStr.startswith phone "92" && (10 <? PyStr.len phone)%nat then PyStr.slice_from 2 phone
  else if PyStr.startswith phone "0" then PyStr.slice_from 1 phone
  else phone.

Definition convert_12hr_to_24hr (hour_12 minute : Z) (period : string) : Z * Z :=
  if String.eqb period "PM" && negb (hour_12 =? 12)%Z then ((hour_12 + 12)%Z, minute)
  else if String.eqb period "AM" && (hour_12 =? 12)%Z then (0%Z, minute)
  else (hour_12, minute).

Definition convert_24hr_to_12hr (hour_24 minute : Z) : Z * Z * string :=
  if (hour_24 =? 0)%Z then (12%Z, minute, "AM")
  else if (hour_24 <? 12)%Z then (hour_24, minute, "AM")
  else if (hour_24 =? 12)%Z then (12%Z, minute, "PM")
  else ((hour_24 - 12)%Z, minute, "PM").

(** ** Dates, times and time zones *)

Record date := { year : Z; month : Z; day : Z }.
Record time := { hour : Z; minute : Z; second : Z }.

(** [datetime.combine(d, t)]: a naive datetime. *)
Record naive_datetime := combine { dt_date : date; dt_time : time }.

(** An aware datetime: the local fields [strftime] prints and the absolute
    instant (seconds) that comparisons of aware datetimes go by. *)
Record datetime := { naive : naive_datetime; instant : Z }.

(** [time(h, m)]; raises [ValueError] ([None]) outside 0..23 and 0..59. *)
Definition mk_time (h m : Z) : option time :=
  if ((0 <=? h) && (h <=? 23) && (0 <=? m) && (m <=? 59))%Z
  then Some {| hour := h; minute := m; second := 0 |}
  else None.

(** The [pytz] zone database: which names [pytz.timezone] accepts
    (it raises [UnknownTimeZoneError] on the others) and the instant that
    [tz.localize] gives a naive datetime in a zone. *)
Class Pytz := {
  tz_known : string -> bool;
  tz_instant : string -> naive_datetime -> Z
}.

Definition localize `{Pytz} (tz_name : string) (d : naive_datetime) : datetime :=
  {| naive := d; instant := tz_instant tz_name d |}.

Definition digit_char (d : Z) : ascii := ascii_of_nat (48 + Z.to_nat d).

(** Decimal rendering on [w] digits, zero padded ([%m], [%d], [%H], [%M],
    [%S] on two digits). *)
Fixpoint pad (w : nat) (n : Z) : string :=
  match w with
  | O => EmptyString
  | S w' => pad w' (n / 10) ++ String (digit_char (n mod 10)) EmptyString
  end.

(** [str(n)] for an [int] *)
Definition str_int (n : Z) : string := NilZero.string_of_int (Z.to_int n).

(** [%Y]: the four digits of the year from 1000 on; below, the bare number
    (the C library does not pad it). *)
Definition fmt_year (y : Z) : string :=
  if (y <? 1000)%Z then str_int y else pad 4 y.

(** [dt.strftime("%Y-%m-%d %H:%M:%S")] *)
Definition strftime (dt : datetime) : string :=
  let d := dt_date (naive dt) in
  let t := dt_time (naive dt) in
  fmt_year (year d) ++ "-" ++ pad 2 (month d) ++ "-" ++ pad 2 (day d) ++ " " ++
  pad 2 (hour t) ++ ":" ++ pad 2 (minute t) ++ ":" ++ pad 2 (second t).

(** [DEFAULT_POLL_START], [DEFAULT_POLL_END] *)
Definition DEFAULT_POLL_START : naive_datetime :=
  combine {| year := 2026; month := 1; day := 1 |} {| hour := 9; minute := 0; second := 0 |}.
Definition DEFAULT_POLL_END : naive_datetime :=
  combine {| year := 2026; month := 1; day := 31 |} {| hour := 18; minute := 0; second := 0 |}.

(** ** The database *)

(** The JSON object stored in [employees.info]: attribute names with their
    value, [None] for a JSON null. *)
Definition info := list (string * option string).

(** A row of [poll_results]: phone, response, timestamp. *)
Record vote := { v_phone : string; v_response : string; v_timestamp : string }.

Record db := {
  poll_results : list vote;               (* PRIMARY KEY (phone) *)
  employees : list (string * info);       (* phone PRIMARY KEY, info; in rowid order *)
  settings : gmap string string           (* key PRIMARY KEY, value *)
}.

Definition set_poll_results (d : db) (r : list vote) : db :=
  {| poll_results := r; employees := employees d; settings := settings d |}.
Definition set_employees (d : db) (e : list (string * info)) : db :=
  {| poll_results := poll_results d; employees := e; settings := settings d |}.
Definition set_settings (d : db) (s : gmap string string) : db :=
  {| poll_results := poll_results d; employees := employees d; settings := s |}.

(** [get_setting(key)] with the default [None] *)
Definition get_setting (d : db) (key : string) : option string :=
  settings d !! key.

(** [get_setting(key, default)] *)
Definition get_setting_or (d : db) (key default : string) : string :=
  match settings d !! key with Some v => v | None => default end.

(** [INSERT OR REPLACE INTO settings] *)
Definition set_setting (d : db) (key value : string) : db :=
  set_settings d (<[key := value]> (settings d)).

Definition has_already_voted (d : db) (phone : string) : bool :=
  existsb (fun v => String.eqb (v_phone v) phone) (poll_results d).

(** [INSERT INTO poll_results]: the primary key makes the statement fail
    with [sqlite3.IntegrityError] ([None]) when the phone has a row. *)
Definition save_vote (d : db) (phone response timestamp : string) : option db :=
  if existsb (fun v => String.eqb (v_phone v) phone) (poll_results d) then None
  else Some (set_poll_results d
               (poll_results d ++
                [{| v_phone := phone; v_response := response; v_timestamp := timestamp |}])%list).

Definition get_employee (d : db) (phone : string) : option info :=
  match find (fun e => String.eqb (fst e) phone) (employees d) with
  | Some e => Some (snd e)
  | None =>
      let normalized_input := normalize_for_comparison phone in
      match find (fun e => String.eqb (normalize_for_comparison (fst e)) normalized_input)
                 (employees d) with
      | Some e => Some (snd e)
      | None => None
      end
  end.

Definition get_total_employees (d : db) : nat := length (employees d).

(** ** Staff login *)

Inductive login_outcome :=
| FillAllFields            (* "Please fill in all fields." *)
| InvalidPhoneFormat       (* "Invalid phone number format..." *)
| InvalidPassword          (* "Invalid password." *)
| NotInDatabase            (* "Phone number not found in employee database." *)
| LoggedIn (user_phone : string) (user_info : info).

Definition is_empty (s : string) : bool :=
  match s with EmptyString => true | _ => false end.

(** The submit branch of the login form.  [hash_password] stands for the
    SHA-256 hex digest. *)
Definition show_login_screen (hash_password : string -> string) (d : db)
    (phone_input pass_input : string) : login_outcome :=
  let USER_PASS_HASH := hash_password "ykk123" in
  let PHONE_VALIDATION_MODE := get_setting_or d "validation_mode" DEFAULT_PHONE_VALIDATION_MODE in
  if is_empty phone_input || is_empty pass_input then FillAllFields
  else
    let clean := clean_phone phone_input in
    if negb (validate_phone clean PHONE_VALIDATION_MODE) then InvalidPhoneFormat
    else if negb (String.eqb (hash_password pass_input) USER_PASS_HASH) then InvalidPassword
    else
      match get_employee d clean with
      | Some (a :: user_info) => LoggedIn clean (a :: user_info)
      | _ => NotInDatabase       (* a missing row, or an empty (falsy) info dict *)
      end.

(** ** Streamlit's toast *)

(** The icon that every [st.toast] of the source passes, by its code
    points: U+201A, U+00FA, U+00D6. *)
Definition TOAST_ICON : list N := [8218; 250; 214]%N.

(** [st.toast] checks its icon against Streamlit's table of icons and raises
    [StreamlitAPIException] for a string that is not one of them.  The table
    is a parameter; the icon of the source is not in it. *)
Class Streamlit := {
  icon_accepted : list N -> bool;
  toast_icon_rejected : icon_accepted TOAST_ICON = false
}.

(** [st.toast(body, icon=icon)]; [None] when it raises. *)
Definition st_toast `{Streamlit} (icon : list N) : option unit :=
  if icon_accepted icon then Some tt else None.

(** ** Poll window and vote *)

Inductive poll_state := NOT_STARTED | OPEN | CLOSED.

(** The window tests of the vote logic: [now < POLL_START], then
    [now > POLL_END]. *)
Definition get_poll_state (now POLL_START POLL_END : Z) : poll_state :=
  if (now <? POLL_START)%Z then NOT_STARTED
  else if (now >? POLL_END)%Z then CLOSED
  else OPEN.

(** The test that shows the remaining-time banner:
    [POLL_START <= now <= POLL_END]. *)
Definition timer_shown (now POLL_START POLL_END : Z) : bool :=
  ((POLL_START <=? now) && (now <=? POLL_END))%Z.

(** Where the vote logic ends and what it did to the table of responses.
    What the page then shows is [vote_message], below. *)
Inductive vote_outcome :=
| PollOpensOn              (* poll not started *)
| PollClosedOn             (* poll closed *)
| AlreadyRecorded          (* "You can only submit one response per poll." *)
| FormShown                (* the form, nothing submitted *)
| ResponseSubmitted        (* the row was inserted *)
| ErrorSubmitting.         (* the insert raised *)

(** The vote logic of [show_user_interface] for the logged-in [user_phone],
    up to and including the insert; [submit] is the selected option when
    "Submit Response" is pressed. *)
Definition show_user_interface (d : db) (user_phone : string)
    (POLL_START POLL_END now : datetime) (submit : option string) : vote_outcome * db :=
  match get_poll_state (instant now) (instant POLL_START) (instant POLL_END) with
  | NOT_STARTED => (PollOpensOn, d)
  | CLOSED => (PollClosedOn, d)
  | OPEN =>
      if has_already_voted d user_phone then (AlreadyRecorded, d)
      else
        match submit with
        | None => (FormShown, d)
        | Some option =>
            let timestamp_str := strftime now in
            match save_vote d user_phone option timestamp_str with
            | Some d' => (ResponseSubmitted, d')
            | None => (ErrorSubmitting, d)
            end
        end
  end.



(** ** Roster upload (Manage Users tab) *)

(** A row of the uploaded sheet: the cell of the phone column ([None] for
    an empty cell, which pandas reads as NaN) and the other columns. *)
Record upload_row := { cell : option string; attrs : info }.

(** [str(x)] on a cell read with [dtype=str] *)
Definition py_str (c : option string) : string :=
  match c with Some s => s | None => "nan" end.

(** [df_upload[COL_PHONE] = df_upload[COL_PHONE].apply(clean_phone)] *)
Definition clean_rows (rows : list upload_row) : list (string * info) :=
  map (fun r => (clean_phone (py_str (cell r)), attrs r)) rows.

Definition invalid_phones (mode : string) (df_upload : list (string * info)) :=
  List.filter (fun r => negb (validate_phone (fst r) mode)) df_upload.

Definition valid_df (mode : string) (df_upload : list (string * info)) :=
  List.filter (fun r => validate_phone (fst r) mode) df_upload.

(** [INSERT OR IGNORE INTO employees (phone, info)] *)
Definition insert_or_ignore (emps : list (string * info)) (row : string * info) :=
  if existsb (fun e => String.eqb (fst e) (fst row)) emps then emps
  else (emps ++ [row])%list.

(** "Confirm Upload & Overwrite Database": [DELETE FROM employees], then one
    [INSERT OR IGNORE] per valid row, in sheet order. *)
Definition confirm_upload (d : db) (valid : list (string * info)) : db :=
  set_employees d (fold_left insert_or_ignore valid []).

(** The upload with its confirmation: the number announced as ready to
    upload, the rows shown as invalid, the database afterwards. *)
Definition replace_roster (d : db) (rows : list upload_row)
  : nat * list (string * info) * db :=
  let PHONE_VALIDATION_MODE := get_setting_or d "validation_mode" DEFAULT_PHONE_VALIDATION_MODE in
  let df_upload := clean_rows rows in
  let invalid := invalid_phones PHONE_VALIDATION_MODE df_upload in
  let valid := valid_df PHONE_VALIDATION_MODE df_upload in
  (length valid, invalid, confirm_upload d valid).

(** ** Settings (admin draft in the session state) *)

(** The [settings_*] keys of [st.session_state]. *)
Record draft := {
  settings_timezone : string;
  settings_time_format : string;
  settings_time_input : string;
  settings_start_date : date;
  settings_end_date : date;
  settings_validation : string;
  settings_col_phone : string;
  settings_start_hour : Z;
  settings_start_min : Z;
  settings_start_period : string;
  settings_end_hour : Z;
  settings_end_min : Z;
  settings_end_period : string;
  settings_start_time_24 : time;
  settings_end_time_24 : time
}.

(** "Get times based on format": the 24-hour fields as they are, or the
    12-hour fields converted; [None] when [time(h, m)] raises. *)
Definition draft_times (st : draft) : option (time * time) :=
  if String.eqb (settings_time_input st) "24"
  then Some (settings_start_time_24 st, settings_end_time_24 st)
  else
    let '(h, m) := convert_12hr_to_24hr (settings_start_hour st) (settings_start_min st)
                     (settings_start_period st) in
    match mk_time h m with
    | None => None
    | Some s_time =>
        let '(h, m) := convert_12hr_to_24hr (settings_end_hour st) (settings_end_min st)
                         (settings_end_period st) in
        match mk_time h m with
        | None => None
        | Some e_time => Some (s_time, e_time)
        end
    end.

Inductive save_result :=
| SettingsSaved          (* (True, "Settings saved successfully!") *)
| EndNotAfterStart       (* (False, "End date/time must be after start date/time") *)
| ErrorSaving.           (* (False, "Error saving settings: ...") *)

Definition save_settings_to_db `{Pytz} (d : db) (st : draft) : save_result * db :=
  let tz_name := settings_timezone st in
  if negb (tz_known tz_name) then (ErrorSaving, d)
  else
    match draft_times st with
    | None => (ErrorSaving, d)
    | Some (s_time, e_time) =>
        let new_start := localize tz_name (combine (settings_start_date st) s_time) in
        let new_end := localize tz_name (combine (settings_end_date st) e_time) in
        if (instant new_end <=? instant new_start)%Z then (EndNotAfterStart, d)
        else
          let d := set_setting d "poll_start" (strftime new_start) in
          let d := set_setting d "poll_end" (strftime new_end) in
          let d := set_setting d "validation_mode" (settings_validation st) in
          let d := set_setting d "timezone" tz_name in
          let d := set_setting d "time_format" (settings_time_format st) in
          let d := set_setting d "col_phone" (PyStr.strip (settings_col_phone st)) in
          (SettingsSaved, d)
    end.

(** [a != b] where [b] may be [None] *)
Definition differs (a : string) (b : option string) : bool :=
  match b with Some v => negb (String.eqb a v) | None => true end.

(** [st] is [None] when the session state has no [settings_timezone] key. *)
Definition check_settings_changed `{Pytz} (d : db) (st : option draft) : bool :=
  let saved_start_str := get_setting d "poll_start" in
  let saved_end_str := get_setting d "poll_end" in
  let saved_tz := get_setting_or d "timezone" DEFAULT_TIMEZONE in
  let saved_time_format := get_setting_or d "time_format" DEFAULT_TIME_FORMAT in
  let saved_val_mode := get_setting_or d "validation_mode" DEFAULT_PHONE_VALIDATION_MODE in
  let saved_col_phone := get_setting_or d "col_phone" DEFAULT_COL_PHONE in
  match st with
  | None => false
  | Some st =>
      if negb (String.eqb (settings_timezone st) saved_tz)
         || negb (String.eqb (settings_time_format st) saved_time_format)
         || negb (String.eqb (settings_validation st) saved_val_mode)
         || negb (String.eqb (PyStr.strip (settings_col_phone st)) saved_col_phone)
      then true
      else if negb (tz_known (settings_timezone st)) then false   (* except: return False *)
      else
        match draft_times st with
        | None => false                                            (* except: return False *)
        | Some (s_time, e_time) =>
            let tz := settings_timezone st in
            let new_start := localize tz (combine (settings_start_date st) s_time) in
            let new_end := localize tz (combine (settings_end_date st) e_time) in
            let current_start_str := strftime new_start in
            let current_end_str := strftime new_end in
            differs current_start_str saved_start_str || differs current_end_str saved_end_str
        end
  end.

(** The part of the admin session the save buttons touch. *)
Record session := {
  settings_keys : option draft;
  active_admin_tab : option Z;
  show_unsaved_dialog : bool;
  requested_tab : option Z
}.

(** "Save All Settings".  [saving_in_progress] is set and the settings are
    saved; on success the toast comes first, then [saving_in_progress] is
    cleared and every [settings_*] key is deleted.  When the toast raises
    the run ends there: the keys stay and [saving_in_progress] stays set.
    The first component is what [save_settings_to_db] returned, the last
    is [saving_in_progress] afterwards. *)
Definition save_all_settings `{Pytz} `{Streamlit} (d : db) (ss : session)
  : save_result * db * session * bool :=
  match settings_keys ss with
  | None => (ErrorSaving, d, ss, false)
  | Some st =>
      match save_settings_to_db d st with
      | (SettingsSaved, d') =>
          match st_toast TOAST_ICON with
          | Some _ =>
              (SettingsSaved, d',
               {| settings_keys := None; active_admin_tab := active_admin_tab ss;
                  show_unsaved_dialog := show_unsaved_dialog ss;
                  requested_tab := requested_tab ss |}, false)
          | None => (SettingsSaved, d', ss, true)
          end
      | (r, d') => (r, d', ss, false)
      end
  end.

(** "Save & Switch" of the unsaved-changes dialog: on success the keys are
    deleted and the tab is switched before the toast. *)
Definition save_and_switch `{Pytz} (d : db) (ss : session) : save_result * db * session :=
  match settings_keys ss with
  | None => (ErrorSaving, d, ss)
  | Some st =>
      match save_settings_to_db d st with
      | (SettingsSaved, d') =>
          (SettingsSaved, d',
           {| settings_keys := None; active_admin_tab := requested_tab ss;
              show_unsaved_dialog := false; requested_tab := None |})
      | (r, d') => (r, d', ss)
      end
  end.

(** Updates of the draft's keys. *)
Definition set_time_input (v : string) (st : draft) : draft := {|
  settings_timezone := settings_timezone st;
  settings_time_format := settings_time_format st;
  settings_time_input := v;
  settings_start_date := settings_start_date st;
  settings_end_date := settings_end_date st;
  settings_validation := settings_validation st;
  settings_col_phone := settings_col_phone st;
  settings_start_hour := settings_start_hour st;
  settings_start_min := settings_start_min st;
  settings_start_period := settings_start_period st;
  settings_end_hour := settings_end_hour st;
  settings_end_min := settings_end_min st;
  settings_end_period := settings_end_period st;
  settings_start_time_24 := settings_start_time_24 st;
  settings_end_time_24 := settings_end_time_24 st
|}.

Definition set_times_24 (s_time e_time : time) (st : draft) : draft := {|
  settings_timezone := settings_timezone st;
  settings_time_format := settings_time_format st;
  settings_time_input := settings_time_input st;
  settings_start_date := settings_start_date st;
  settings_end_date := settings_end_date st;
  settings_validation := settings_validation st;
  settings_col_phone := settings_col_phone st;
  settings_start_hour := settings_start_hour st;
  settings_start_min := settings_start_min st;
  settings_start_period := settings_start_period st;
  settings_end_hour := settings_end_hour st;
  settings_end_min := settings_end_min st;
  settings_end_period := settings_end_period st;
  settings_start_time_24 := s_time;
  settings_end_time_24 := e_time
|}.

Definition set_times_12 (s e : Z * Z * string) (st : draft) : draft := {|
  settings_timezone := settings_timezone st;
  settings_time_format := settings_time_format st;
  settings_time_input := settings_time_input st;
  settings_start_date := settings_start_date st;
  settings_end_date := settings_end_date st;
  settings_validation := settings_validation st;
  settings_col_phone := settings_col_phone st;
  settings_start_hour := fst (fst s);
  settings_start_min := snd (fst s);
  settings_start_period := snd s;
  settings_end_hour := fst (fst e);
  settings_end_min := snd (fst e);
  settings_end_period := snd e;
  settings_start_time_24 := settings_start_time_24 st;
  settings_end_time_24 := settings_end_time_24 st
|}.

(** "Sync values when format changes": [st] already holds the newly
    selected input mode; the representation of the other mode is converted
    into the one now shown.  [None] when [time(h, m)] raises. *)
Definition sync_time_input (st : draft) : option draft :=
  if String.eqb (settings_time_input st) "24" then
    let '(h, m) := convert_12hr_to_24hr (settings_start_hour st) (settings_start_min st)
                     (settings_start_period st) in
    match mk_time h m with
    | None => None
    | Some s_time =>
        let '(h, m) := convert_12hr_to_24hr (settings_end_hour st) (settings_end_min st)
                         (settings_end_period st) in
        match mk_time h m with
        | None => None
        | Some e_time => Some (set_times_24 s_time e_time st)
        end
    end
  else
    Some (set_times_12
            (convert_24hr_to_12hr (hour (settings_start_time_24 st))
               (minute (settings_start_time_24 st)))
            (convert_24hr_to_12hr (hour (settings_end_time_24 st))
               (minute (settings_end_time_24 st)))
            st).

(** ** Display helpers *)

(** [str.lower()] on one code point below 256: A-Z and the accented
    capitals of Latin-1 move up by 32. *)
Definition lower_char (c : ascii) : ascii :=
  let n := nat_of_ascii c in
  if (((65 <=? n) && (n <=? 90))
      || ((192 <=? n) && (n <=? 222) && negb (n =? 215)))%nat
  then ascii_of_nat (n + 32) else c.

Fixpoint lower (s : string) : string :=
  match s with
  | EmptyString => EmptyString
  | String c t => String (lower_char c) (lower t)
  end.

(** [d.get(key, default)] on the JSON object of an employee. *)
Definition dict_get (d : info) (key : string) (default : option string) : option string :=
  match find (fun kv => String.eqb (fst kv) key) d with
  | Some kv => snd kv
  | None => default
  end.

(** [v and str(v).lower() != 'nan'] *)
Definition usable (v : option string) : bool :=
  match v with
  | Some s => negb (is_empty s) && negb (String.eqb (lower s) "nan")
  | None => false
  end.

(** [str(v)] on a JSON value *)
Definition str_value (v : option string) : string :=
  match v with Some s => s | None => "None" end.

(** [sep.join(parts)] *)
Fixpoint join (sep : string) (parts : list string) : string :=
  match parts with
  | [] => EmptyString
  | [p] => p
  | p :: rest => p ++ sep ++ join sep rest
  end.

Definition get_display_name (user_info : info) : string :=
  let name := dict_get user_info "Name"
                (dict_get user_info "name" (dict_get user_info "Employee Name" (Some ""))) in
  let dept := dict_get user_info "Department"
                (dict_get user_info "department" (dict_get user_info "Dept" (Some ""))) in
  let parts := ((if usable name then [str_value name] else [])
                ++ (if usable dept then [str_value dept] else []))%list in
  let parts :=
    match parts with
    | [] => firstn 2 (map str_value (List.filter usable (map snd user_info)))
    | _ => parts
    end in
  match parts with
  | [] => "User"
  | _ => join " | " parts
  end.

(** [%B] *)
Definition month_name (m : Z) : string :=
  match m with
  | 1 => "January" | 2 => "February" | 3 => "March" | 4 => "April"
  | 5 => "May" | 6 => "June" | 7 => "July" | 8 => "August"
  | 9 => "September" | 10 => "October" | 11 => "November" | 12 => "December"
  | _ => ""
  end%Z.

(** [%I]: the hour on the 12-hour clock *)
Definition hour_I (h : Z) : Z := if (h mod 12 =? 0)%Z then 12%Z else (h mod 12)%Z.

(** [%p] *)
Definition am_pm (h : Z) : string := if (h <? 12)%Z then "AM" else "PM".

Definition format_time_display (dt : datetime) (time_format : string) : string :=
  let d := dt_date (naive dt) in
  let t := dt_time (naive dt) in
  if String.eqb time_format "12"
  then month_name (month d) ++ " " ++ pad 2 (day d) ++ ", " ++ fmt_year (year d) ++ " at "
       ++ pad 2 (hour_I (hour t)) ++ ":" ++ pad 2 (minute t) ++ " " ++ am_pm (hour t)
  else month_name (month d) ++ " " ++ pad 2 (day d) ++ ", " ++ fmt_year (year d) ++ " at "
       ++ pad 2 (hour t) ++ ":" ++ pad 2 (minute t).

(** ** Remaining time *)

(** A [timedelta], at the resolution of seconds: [days] and [seconds],
    the latter in 0..86399. *)
Record timedelta := { td_days : Z; td_seconds : Z }.

(** [a - b] for two aware datetimes *)
Definition datetime_sub (a b : datetime) : timedelta :=
  {| td_days := ((instant a - instant b) / 86400)%Z;
     td_seconds := ((instant a - instant b) mod 86400)%Z |}.

(** The days, hours and minutes of the banner. *)
Definition timer_parts (remaining : timedelta) : Z * Z * Z :=
  let days := td_days remaining in
  let hours := (td_seconds remaining / 3600)%Z in
  let remainder := (td_seconds remaining mod 3600)%Z in
  let minutes := (remainder / 60)%Z in
  (days, hours, minutes).

(** The text of the "Time left" banner, [None] when it is not shown. *)
Definition timer_str (POLL_START POLL_END now : datetime) : option string :=
  let remaining := datetime_sub POLL_END now in
  if timer_shown (instant now) (instant POLL_START) (instant POLL_END) then
    let '(days, hours, minutes) := timer_parts remaining in
    Some (if (days >? 0)%Z
          then str_int days ++ "d " ++ str_int hours ++ "h " ++ str_int minutes ++ "m"
          else str_int hours ++ "h " ++ str_int minutes ++ "m")
  else None.

(** ** Admin dashboard: tabs, dialog, results *)

(** What [get_poll_config] returns; [TZ] by the name of the zone. *)
Record poll_config := {
  POLL_START : datetime;
  POLL_END : datetime;
  PHONE_VALIDATION_MODE : string;
  TZ : string;
  TIME_FORMAT : string;
  COL_PHONE : string
}.

(** "Initialize settings in session state EARLY": the draft made from the
    configuration. *)
Definition init_settings (cfg : poll_config) : draft :=
  let s := dt_time (naive (POLL_START cfg)) in
  let e := dt_time (naive (POLL_END cfg)) in
  let '(h12_s, m_s, p_s) := convert_24hr_to_12hr (hour s) (minute s) in
  let '(h12_e, m_e, p_e) := convert_24hr_to_12hr (hour e) (minute e) in
  {| settings_timezone := TZ cfg;
     settings_time_format := TIME_FORMAT cfg;
     settings_time_input := "12";
     settings_start_date := dt_date (naive (POLL_START cfg));
     settings_end_date := dt_date (naive (POLL_END cfg));
     settings_validation := PHONE_VALIDATION_MODE cfg;
     settings_col_phone := COL_PHONE cfg;
     settings_start_hour := h12_s;
     settings_start_min := m_s;
     settings_start_period := p_s;
     settings_end_hour := h12_e;
     settings_end_min := m_e;
     settings_end_period := p_e;
     settings_start_time_24 := s;
     settings_end_time_24 := e |}.

(** The guard of that block: on the Settings tab or with the dialog open,
    and no draft yet. *)
Definition ensure_settings (cfg : poll_config) (ss : session) : session :=
  let on_tab := match active_admin_tab ss with Some t => (t =? 2)%Z | None => false end in
  match settings_keys ss with
  | None =>
      if on_tab || show_unsaved_dialog ss
      then {| settings_keys := Some (init_settings cfg);
              active_admin_tab := active_admin_tab ss;
              show_unsaved_dialog := show_unsaved_dialog ss;
              requested_tab := requested_tab ss |}
      else ss
  | Some _ => ss
  end.






(** "Reset", confirmed: [DELETE FROM settings] and the draft goes. *)
Definition reset_settings (d : db) (ss : session) : db * session :=
  (set_settings d ∅,
   {| settings_keys := None;
      active_admin_tab := active_admin_tab ss;
      show_unsaved_dialog := show_unsaved_dialog ss;
      requested_tab := requested_tab ss |}).


(** The participation figures of the View Results tab. *)
Definition total_voted (d : db) : nat := length (poll_results d).

Definition total_not_voted (d : db) : Z :=
  (Z.of_nat (get_total_employees d) - Z.of_nat (total_voted d))%Z.

(** The "Not Voted Employees" export: the employees whose phone is not the
    phone of a response. *)
Definition not_voted_df (d : db) : list (string * info) :=
  List.filter
    (fun e => negb (existsb (String.eqb (fst e)) (map v_phone (poll_results d))))
    (employees d).

(** [len(df_results[df_results['response'] == r])] *)
Definition count_response (d : db) (r : string) : nat :=
  length (List.filter (fun v => String.eqb (v_response v) r) (poll_results d)).

(** * Notions used to state the properties *)

(** ** Phone shapes, in the words of the specification *)

Definition newline : string := String "010"%char EmptyString.

Definition is_digit (c : ascii) : bool :=
  existsb (Ascii.eqb c) ["0"; "1"; "2"; "3"; "4"; "5"; "6"; "7"; "8"; "9"]%char.

Fixpoint all_digits (s : string) : bool :=
  match s with
  | EmptyString => true
  | String c t => is_digit c && all_digits t
  end.

(** An optional [+92], [92] or [0], then [3], then nine digits. *)
Definition strict_shape (s : string) : Prop :=
  exists pre body,
    s = pre ++ "3" ++ body
    /\ (pre = "" \/ pre = "+92" \/ pre = "92" \/ pre = "0")
    /\ String.length body = 9%nat /\ all_digits body = true.

(** An optional [+], then 7 to 15 digits. *)
Definition flexible_shape (s : string) : Prop :=
  exists sign ds,
    s = sign ++ ds
    /\ (sign = "" \/ sign = "+")
    /\ (7 <= String.length ds <= 15)%nat /\ all_digits ds = true.

(** The rule in the words of the specification: the [92] prefix goes when
    the length of the result exceeds 10. *)
Definition normalize_for_match_spec (phone : string) : string :=
  if PyStr.startswith phone "+92" then PyStr.slice_from 3 phone
  else if PyStr.startswith phone "92" && (10 <? PyStr.len (PyStr.slice_from 2 phone))%nat
       then PyStr.slice_from 2 phone
  else if PyStr.startswith phone "0" then PyStr.slice_from 1 phone
  else phone.

(** Rows of [poll_results] stored for a phone. *)
Definition rows_of (phone : string) (d : db) : list vote :=
  List.filter (fun v => String.eqb (v_phone v) phone) (poll_results d).

(** One use of the vote screen by some logged-in staff member. *)
Record attempt := {
  a_phone : string;
  a_start : datetime;
  a_end : datetime;
  a_now : datetime;
  a_submit : option string
}.

Definition attempt_db (d : db) (a : attempt) : db :=
  snd (show_user_interface d (a_phone a) (a_start a) (a_end a) (a_now a) (a_submit a)).

Definition attempts_db (d : db) (l : list attempt) : db := fold_left attempt_db l d.

(** The stored row of a phone, by exact match. *)
Definition has_phone (p : string) (e : string * info) : bool := String.eqb (fst e) p.

(** The keys that saving the settings writes. *)
Definition six_keys : list string :=
  ["poll_start"; "poll_end"; "validation_mode"; "timezone"; "time_format"; "col_phone"].

(** A time of day as the time widget gives it: whole minutes. *)
Definition whole_minute (t : time) : Prop :=
  (0 <= hour t <= 23 /\ 0 <= minute t <= 59 /\ second t = 0)%Z.

(** Every character of [s] satisfies [P]. *)
Fixpoint str_forall (P : ascii -> bool) (s : string) : bool :=
  match s with
  | EmptyString => true
  | String c t => P c && str_forall P t
  end.

(** The four characters that [clean_phone] deletes. *)
Definition separator (c : ascii) : bool :=
  Ascii.eqb c " " || Ascii.eqb c "-" || Ascii.eqb c "(" || Ascii.eqb c ")".

(** A character that is no whitespace, or is the plain space. *)
Definition space_or_solid (c : ascii) : bool := negb (PyStr.isspace c) || Ascii.eqb c " ".

(** [s] spells the mobile number of national digits [3 body] in one of the
    four strict spellings. *)
Definition spells (s body : string) : Prop :=
  exists pre,
    (pre = "" \/ pre = "+92" \/ pre = "92" \/ pre = "0")
    /\ s = pre ++ "3" ++ body
    /\ String.length body = 9%nat /\ all_digits body = true.

(** The shape that a mode asks for. *)
Definition mode_shape (mode : string) (s : string) : Prop :=
  if String.eqb mode "strict" then strict_shape s else flexible_shape s.

(** The six writes of a save, on the settings table. *)
Definition six_writes (v1 v2 v3 v4 v5 v6 : string) (m : gmap string string) :=
  <["col_phone" := v6]> (<["time_format" := v5]> (<["timezone" := v4]>
    (<["validation_mode" := v3]> (<["poll_end" := v2]> (<["poll_start" := v1]> m))))).

(** The 12-hour fields of a draft as the number inputs and the AM/PM
    selector constrain them. *)
Definition twelve_hour_fields (st : draft) : Prop :=
  (1 <= settings_start_hour st <= 12 /\ 0 <= settings_start_min st <= 59
   /\ 1 <= settings_end_hour st <= 12 /\ 0 <= settings_end_min st <= 59)%Z
  /\ (settings_start_period st = "AM" \/ settings_start_period st = "PM")
  /\ (settings_end_period st = "AM" \/ settings_end_period st = "PM").

(** The fields of a datetime fill the widths of the stored format: a year
    of four digits (a year below 1000 is written with fewer) and the other
    fields of at most two. *)
Definition fits_format (dt : datetime) : Prop :=
  let d := dt_date (naive dt) in
  let t := dt_time (naive dt) in
  (1000 <= year d < 10000 /\ 0 <= month d < 100 /\ 0 <= day d < 100
   /\ 0 <= hour t < 100 /\ 0 <= minute t < 100 /\ 0 <= second t < 100)%Z.

(** The three options of the form. *)
Definition options : list string :=
  ["I am okay and safe."; "I am stuck but help not needed."; "I am stuck and help is needed."].

(** * Sample data *)

(** A zone database with two zones of constant offset, the instant counted
    on a calendar of 31-day months, which keeps the order of datetimes. *)
Definition calendar_seconds (d : naive_datetime) : Z :=
  (((((year (dt_date d) * 12 + month (dt_date d)) * 31 + day (dt_date d)) * 24
     + hour (dt_time d)) * 60 + minute (dt_time d)) * 60 + second (dt_time d))%Z.

Definition two_zones : Pytz := {|
  tz_known := fun name => String.eqb name "UTC" || String.eqb name "Asia/Karachi";
  tz_instant := fun _ d => calendar_seconds d
|}.

(** A datetime in Asia/Karachi. *)
Definition at_time (y mo d h mi : Z) : datetime :=
  @localize two_zones "Asia/Karachi"
    (combine {| year := y; month := mo; day := d |} {| hour := h; minute := mi; second := 0 |}).

(** A roster of one employee stored under the local spelling of the number. *)
Definition one_employee : db := {|
  poll_results := [];
  employees := [("03001234567", [("Name", Some "Ayesha"); ("Department", Some "QA")])];
  settings := ∅
|}.

Definition ayesha : info := [("Name", Some "Ayesha"); ("Department", Some "QA")].

Definition window_start : datetime := at_time 2026 1 1 9 0.
Definition window_end : datetime := at_time 2026 1 31 18 0.

(** A sheet of five rows: three valid phones, a word and an empty cell. *)
Definition sample_upload : list upload_row := [
  {| cell := Some "0300-1234567"; attrs := [("Name", Some "Ayesha")] |};
  {| cell := Some "abc"; attrs := [("Name", Some "Bilal")] |};
  {| cell := Some " +92 (301) 7654321 "; attrs := [("Name", Some "Danish")] |};
  {| cell := None; attrs := [("Name", None)] |};
  {| cell := Some "03211112222"; attrs := [("Name", Some "Fatima")] |}
].

(** The draft that the dashboard creates from the default configuration. *)
Definition default_draft : draft := {|
  settings_timezone := DEFAULT_TIMEZONE;
  settings_time_format := DEFAULT_TIME_FORMAT;
  settings_time_input := "12";
  settings_start_date := dt_date DEFAULT_POLL_START;
  settings_end_date := dt_date DEFAULT_POLL_END;
  settings_validation := DEFAULT_PHONE_VALIDATION_MODE;
  settings_col_phone := DEFAULT_COL_PHONE;
  settings_start_hour := 9;
  settings_start_min := 0;
  settings_start_period := "AM";
  settings_end_hour := 6;
  settings_end_min := 0;
  settings_end_period := "PM";
  settings_start_time_24 := dt_time DEFAULT_POLL_START;
  settings_end_time_24 := dt_time DEFAULT_POLL_END
|}.

(** The draft with 24-hour input selected and the end set to [dt]. *)
Definition set_end (dt : naive_datetime) (st : draft) : draft := {|
  settings_timezone := settings_timezone st;
  settings_time_format := settings_time_format st;
  settings_time_input := "24";
  settings_start_date := settings_start_date st;
  settings_end_date := dt_date dt;
  settings_validation := settings_validation st;
  settings_col_phone := settings_col_phone st;
  settings_start_hour := settings_start_hour st;
  settings_start_min := settings_start_min st;
  settings_start_period := settings_start_period st;
  settings_end_hour := settings_end_hour st;
  settings_end_min := settings_end_min st;
  settings_end_period := settings_end_period st;
  settings_start_time_24 := settings_start_time_24 st;
  settings_end_time_24 := dt_time dt
|}.

(** The admin session on the Settings tab with the draft [st]. *)
Definition on_settings_tab (st : draft) : session := {|
  settings_keys := Some st;
  active_admin_tab := Some 2%Z;
  show_unsaved_dialog := false;
  requested_tab := None
|}.

(** The settings table after the default draft was saved. *)
Definition saved_defaults : db := snd (@save_settings_to_db two_zones one_employee default_draft).

(** The draft with [v] typed into the phone column field. *)
Definition set_col_phone (v : string) (st : draft) : draft := {|
  settings_timezone := settings_timezone st;
  settings_time_format := settings_time_format st;
  settings_time_input := settings_time_input st;
  settings_start_date := settings_start_date st;
  settings_end_date := settings_end_date st;
  settings_validation := settings_validation st;
  settings_col_phone := v;
  settings_start_hour := settings_start_hour st;
  settings_start_min := settings_start_min st;
  settings_start_period := settings_start_period st;
  settings_end_hour := settings_end_hour st;
  settings_end_min := settings_end_min st;
  settings_end_period := settings_end_period st;
  settings_start_time_24 := settings_start_time_24 st;
  settings_end_time_24 := settings_end_time_24 st
|}.

(** A sheet with the phone column only. *)
Definition phones_only : list upload_row := [
  {| cell := Some "03001234567"; attrs := [] |};
  {| cell := Some "03211112222"; attrs := [] |}
].

(** The default configuration, as [get_poll_config] gives it when nothing
    is stored. *)
Definition default_config : poll_config := {|
  POLL_START := @localize two_zones DEFAULT_TIMEZONE DEFAULT_POLL_START;
  POLL_END := @localize two_zones DEFAULT_TIMEZONE DEFAULT_POLL_END;
  PHONE_VALIDATION_MODE := DEFAULT_PHONE_VALIDATION_MODE;
  TZ := DEFAULT_TIMEZONE;
  TIME_FORMAT := DEFAULT_TIME_FORMAT;
  COL_PHONE := DEFAULT_COL_PHONE
|}.

(** The admin session when the Settings tab has just been selected. *)
Definition entering_settings : session := {|
  settings_keys := None;
  active_admin_tab := Some 2%Z;
  show_unsaved_dialog := false;
  requested_tab := None
|}.

(** A table of icons that holds the check mark U+2705 alone. *)
Definition check_mark_only : Streamlit := {|
  icon_accepted := fun icon => bool_decide (icon = [9989%N]);
  toast_icon_rejected := eq_refl
|}.

(** A roster of two employees with one response, stored under the phone of
    the first. *)
Definition one_response : db := {|
  poll_results :=
    [{| v_phone := "03001234567"; v_response := "I am okay and safe.";
        v_timestamp := "2026-01-15 12:00:00" |}];
  employees := [("03001234567", [("Name", Some "Ayesha")]);
                ("03211112222", [("Name", Some "Fatima")])];
  settings := ∅
|}.

(** * Properties *)

(** ** What the matcher accepts *)

Module ReFacts.
Import Re.

Lemma rmatch_den total r :
  forall s k, rmatch total r s k = true <-> exists s', den total r s s' /\ k s' = true.
Proof.
  induction r as [ | c | lo hi | r1 IH1 r2 IH2 | r1 IH1 r2 IH2 | r1 IH1
                 | r1 IH1 lo hi | | ]; intros s k; simpl.
  - split; [intros Hk; exists s; auto | intros (s' & -> & Hk); exact Hk].
  - destruct s as [ | x t].
    + split; [discriminate | intros (s' & Hs & _); discriminate].
    + rewrite andb_true_iff, Ascii.eqb_eq. split.
      * intros [-> Hk]. exists t; auto.
      * intros (s' & Hs & Hk). injection Hs as -> ->. auto.
  - destruct s as [ | x t].
    + split; [discriminate | intros (s' & (y & _ & Hs) & _); discriminate].
    + rewrite andb_true_iff. split.
      * intros [Hx Hk]. exists t; split; [exists x; auto | exact Hk].
      * intros (s' & (y & Hy & Hs) & Hk). injection Hs as -> ->. auto.
  - rewrite IH1. split.
    + intros (m & H1 & H2). apply IH2 in H2 as (s' & H2 & Hk).
      exists s'; split; [exists m; auto | exact Hk].
    + intros (s' & (m & H1 & H2) & Hk). exists m; split; [exact H1 | ].
      apply IH2. exists s'; auto.
  - rewrite orb_true_iff, IH1, IH2. split.
    + intros [(s' & H & Hk) | (s' & H & Hk)]; exists s'; auto.
    + intros (s' & [H | H] & Hk); [left | right]; exists s'; auto.
  - rewrite orb_true_iff, IH1. split.
    + intros [(s' & H & Hk) | Hk]; [exists s'; auto | exists s; auto].
    + intros (s' & [H | ->] & Hk); [left; exists s'; auto | right; exact Hk].
  - revert lo s. induction hi as [ | hi IHhi]; intros lo s.
    + rewrite andb_true_iff, Nat.eqb_eq. split.
      * intros [-> Hk]. exists s; split; [exists 0%nat; simpl; split; [lia | reflexivity] | exact Hk].
      * intros (s' & (n & Hn & Hit) & Hk).
        assert (n = 0%nat) as -> by lia. simpl in Hit. subst s'. split; [lia | exact Hk].
    + rewrite orb_true_iff, andb_true_iff, Nat.eqb_eq, IH1. split.
      * intros [(m & Hm & Hrep) | [-> Hk]].
        -- apply IHhi in Hrep as (s' & (n & Hn & Hit) & Hk).
           exists s'; split; [ | exact Hk].
           exists (S n); split; [lia | ]. simpl. exists m; auto.
        -- exists s; split; [exists 0%nat; simpl; split; [lia | reflexivity] | exact Hk].
      * intros (s' & (n & Hn & Hit) & Hk). destruct n as [ | n].
        -- simpl in Hit. subst s'. right. split; [lia | exact Hk].
        -- simpl in Hit. destruct Hit as (m & Hm & Hit). left.
           exists m; split; [exact Hm | ]. apply IHhi.
           exists s'; split; [exists n; split; [lia | exact Hit] | exact Hk].
  - rewrite andb_true_iff, Nat.eqb_eq. split.
    + intros [Hl Hk]. exists s; auto.
    + intros (s' & [-> Hl] & Hk). auto.
  - rewrite andb_true_iff. split.
    + intros [Hl Hk]. exists s; auto.
    + intros (s' & [-> Hl] & Hk). auto.
Qed.

End ReFacts.

Section Shapes.
Import Re ReFacts.

Lemma in_range_digit c : in_range "0" "9" c = is_digit c.
Proof. destruct c as [[] [] [] [] [] [] [] []]; reflexivity. Qed.

Lemma append_empty_r (s : string) : s ++ "" = s.
Proof. induction s as [ | c t IH]; simpl; [reflexivity | now rewrite IH]. Qed.

Lemma at_end_iff s : at_end s = true <-> s = "" \/ s = newline.
Proof.
  unfold at_end, newline. destruct s as [ | c [ | c' t]].
  - split; auto.
  - rewrite Ascii.eqb_eq. split.
    + intros ->. auto.
    + intros [H | H]; [discriminate | now injection H].
  - split; [discriminate | intros [H | H]; discriminate].
Qed.

Lemma iter_digits total n s s' :
  iter n (den total (Range "0" "9")) s s' <->
  exists ds, String.length ds = n /\ all_digits ds = true /\ s = ds ++ s'.
Proof.
  revert s. induction n as [ | n IH]; intros s; simpl.
  - split.
    + intros ->. exists ""; auto.
    + intros ([ | c t] & Hl & _ & ->); [reflexivity | discriminate].
  - split.
    + intros (m & (x & Hx & ->) & Hit). apply IH in Hit as (ds & Hl & Hd & ->).
      exists (String x ds); simpl. rewrite <- in_range_digit, Hx, Hd, Hl. auto.
    + intros ([ | c t] & Hl & Hd & ->); [discriminate | ].
      simpl in *. apply andb_true_iff in Hd as [Hc Hd]. injection Hl as Hl.
      exists (t ++ s'). split; [exists c; rewrite in_range_digit; auto | ].
      apply IH. exists t; auto.
Qed.

(** What [re.match] with the strict pattern accepts. *)
Lemma validate_phone_strict_iff (s : string) :
  validate_phone s "strict" = true <->
  exists s0, strict_shape s0 /\ (s = s0 \/ s = s0 ++ newline).
Proof.
  unfold validate_phone, re_match. change (patterns_get "strict") with pattern_strict.
  rewrite rmatch_den. unfold pattern_strict. split.
  - intros (s' & Hden & _). cbn [den lits] in Hden.
    destruct Hden as (m0 & [-> _] & m1 & Hpre & m2 & -> & m3 & (n & Hn & Hit) & -> & Hend).
    assert (n = 9%nat) as -> by lia.
    apply (iter_digits 0) in Hit as (ds & Hl & Hd & ->).
    apply at_end_iff in Hend.
    assert (Hs : exists pre, s = pre ++ "3" ++ ds ++ m3
                 /\ (pre = "" \/ pre = "+92" \/ pre = "92" \/ pre = "0")).
    { destruct Hpre as [[(a & -> & b & -> & ->) | [(a & -> & ->) | ->]] | <-].
      - exists "+92"; auto.
      - exists "92"; auto.
      - exists "0"; auto 6.
      - exists ""; auto. }
    destruct Hs as (pre & -> & Hp).
    exists (pre ++ "3" ++ ds). split; [exists pre, ds; repeat split; auto | ].
    destruct Hend as [-> | ->].
    + left. now rewrite append_empty_r.
    + right. destruct Hp as [-> | [-> | [-> | ->]]]; reflexivity.
  - intros (s0 & (pre & body & -> & Hp & Hl & Hd) & Hs).
    assert (Hrest : exists rest, s = pre ++ "3" ++ body ++ rest /\ at_end rest = true).
    { destruct Hs as [-> | ->]; [exists "" | exists newline].
      - now rewrite append_empty_r.
      - split; [ | reflexivity].
        destruct Hp as [-> | [-> | [-> | ->]]]; reflexivity. }
    destruct Hrest as (rest & -> & Hend).
    exists rest. split; [ | reflexivity]. cbn [den lits].
    eexists; split; [split; reflexivity | ].
    exists ("3" ++ body ++ rest). split.
    { destruct Hp as [-> | [-> | [-> | ->]]].
      - right; reflexivity.
      - left; left. eexists; split; [reflexivity | ]. eexists; split; reflexivity.
      - left; right; left. eexists; split; reflexivity.
      - left; right; right. reflexivity. }
    exists (body ++ rest). split; [reflexivity | ].
    exists rest. split; [ | auto].
    exists 9%nat. split; [lia | ]. apply (iter_digits 0). exists body; auto.
Qed.

(** What [re.match] with the flexible pattern accepts. *)
Lemma validate_phone_flexible_iff (s : string) :
  validate_phone s "flexible" = true <->
  exists s0, flexible_shape s0 /\ (s = s0 \/ s = s0 ++ newline).
Proof.
  unfold validate_phone, re_match. change (patterns_get "flexible") with pattern_flexible.
  rewrite rmatch_den. unfold pattern_flexible. split.
  - intros (s' & Hden & _). cbn [den] in Hden.
    destruct Hden as (m0 & [-> _] & m1 & Hpre & m3 & (n & Hn & Hit) & -> & Hend).
    apply (iter_digits 0) in Hit as (ds & Hl & Hd & ->).
    apply at_end_iff in Hend.
    assert (Hs : exists sign, s = sign ++ ds ++ m3 /\ (sign = "" \/ sign = "+")).
    { destruct Hpre as [-> | <-]; [exists "+" | exists ""]; auto. }
    destruct Hs as (sign & -> & Hp).
    exists (sign ++ ds). split; [exists sign, ds; repeat split; auto; lia | ].
    destruct Hend as [-> | ->].
    + left. now rewrite append_empty_r.
    + right. destruct Hp as [-> | ->]; reflexivity.
  - intros (s0 & (sign & ds & -> & Hp & Hl & Hd) & Hs).
    assert (Hrest : exists rest, s = sign ++ ds ++ rest /\ at_end rest = true).
    { destruct Hs as [-> | ->]; [exists "" | exists newline].
      - now rewrite append_empty_r.
      - split; [ | reflexivity]. destruct Hp as [-> | ->]; reflexivity. }
    destruct Hrest as (rest & -> & Hend).
    exists rest. split; [ | reflexivity]. cbn [den].
    eexists; split; [split; reflexivity | ].
    exists (ds ++ rest). split.
    { destruct Hp as [-> | ->]; [right | left]; reflexivity. }
    exists rest. split; [ | auto].
    exists (String.length ds). split; [lia | ]. apply (iter_digits 0). exists ds; auto.
Qed.

End Shapes.

(** ** Validation *)

(** C4.  The specification has [validate] accept exactly the strict (resp. flexible)
    shape.  [re.match] with a pattern ending in [$] also accepts such a
    string followed by one newline: the number ["03001234567"] with a
    newline after it is accepted in both modes although it has neither
    shape, and [clean_phone] can hand [validate_phone] such a string (it
    strips before it removes the dashes).  The four examples of the
    specification hold. *)
Theorem validate_phone_trailing_newline :
  validate_phone ("03001234567" ++ newline) "strict" = true
  /\ ~ strict_shape ("03001234567" ++ newline)
  /\ validate_phone ("03001234567" ++ newline) "flexible" = true
  /\ ~ flexible_shape ("03001234567" ++ newline)
  /\ clean_phone ("03001234567" ++ newline ++ "-") = "03001234567" ++ newline
  /\ validate_phone "03001234567" "strict" = true
  /\ validate_phone "+923001234567" "strict" = true
  /\ validate_phone "923001234567" "strict" = true
  /\ validate_phone "123" "strict" = false.
Proof.
  repeat split; try reflexivity.
  - intros (pre & body & Heq & Hp & Hl & Hd).
    destruct Hp as [-> | [-> | [-> | ->]]]; simpl in Heq; try discriminate.
    injection Heq as <-. discriminate.
  - intros (sign & ds & Heq & Hp & Hl & Hd).
    destruct Hp as [-> | ->]; simpl in Heq; try discriminate.
    subst ds. discriminate.
Qed.

(** C10.  A mode that is neither ["strict"] nor ["flexible"] selects the
    flexible pattern.  The call is then the match of the phone against
    [pattern_flexible] and returns what mode ["flexible"] returns; it
    accepts exactly an optional [+] followed by 7 to 15 digits (and such a
    string followed by one newline), so every phone of the flexible shape
    is accepted, among them ["+4915112345678"], which mode ["strict"]
    rejects. *)
Theorem validate_phone_unknown_mode (phone mode : string) :
  mode <> "strict" -> mode <> "flexible" ->
  patterns_get mode = pattern_flexible
  /\ validate_phone phone mode = Re.re_match pattern_flexible phone
  /\ validate_phone phone mode = validate_phone phone "flexible"
  /\ (validate_phone phone mode = true <->
      exists s0, flexible_shape s0 /\ (phone = s0 \/ phone = s0 ++ newline))
  /\ (flexible_shape phone -> validate_phone phone mode = true)
  /\ validate_phone "+4915112345678" mode = true
  /\ validate_phone "+4915112345678" "strict" = false.
Proof.
  intros Hs _.
  assert (Hget : patterns_get mode = pattern_flexible).
  { unfold patterns_get.
    destruct (String.eqb_spec mode "strict") as [E | _]; [contradiction | ].
    destruct (String.eqb mode "flexible"); reflexivity. }
  assert (Hflex : forall p, validate_phone p mode = validate_phone p "flexible").
  { intros p. unfold validate_phone. now rewrite Hget. }
  split; [exact Hget | ].
  split; [unfold validate_phone; now rewrite Hget | ].
  split; [apply Hflex | ].
  split; [rewrite Hflex; apply validate_phone_flexible_iff | ].
  split.
  - intros Hshape. rewrite Hflex. apply validate_phone_flexible_iff.
    exists phone. split; [exact Hshape | now left].
  - split; [rewrite Hflex | ]; reflexivity.
Qed.

Lemma validate_phone_unknown_mode_witness :
  validate_phone "+4915112345678" "STRICT" = true
  /\ validate_phone "12-34" "STRICT" = false.
Proof.
  split.
  - apply (validate_phone_unknown_mode "+4915112345678" "STRICT"); discriminate.
  - destruct (validate_phone_unknown_mode "12-34" "STRICT") as (_ & _ & Hflex & _);
      [discriminate | discriminate | ].
    rewrite Hflex. reflexivity.
Defined.

(** ** Matching core of a phone *)

(** C5, as stated, fails: ["923001234567"] is canonical and loses its [92]
    although the result has length 10, which does not exceed 10. *)
Lemma normalize_for_match_spec_counterexample :
  clean_phone "923001234567" = "923001234567"
  /\ normalize_for_comparison "923001234567" = "3001234567"
  /\ PyStr.len "3001234567" = 10%nat
  /\ normalize_for_match_spec "923001234567" = "923001234567"
  /\ normalize_for_comparison "923001234567" <> normalize_for_match_spec "923001234567".
Proof. repeat split; try reflexivity. discriminate. Qed.

Lemma startswith_app (p t : string) : PyStr.startswith (p ++ t) p = true.
Proof.
  unfold PyStr.startswith. induction p as [ | c p IH]; simpl.
  - now destruct t.
  - destruct (ascii_dec c c) as [_ | Hc]; [exact IH | contradiction].
Qed.

Lemma slice_from_app (p t : string) : PyStr.slice_from (String.length p) (p ++ t) = t.
Proof. induction p as [ | c p IH]; simpl; [reflexivity | exact IH]. Qed.

(** C5 (amended).  On a phone that [clean_phone] leaves unchanged,
    [normalize_for_comparison] removes a leading [+92]; or a leading [92]
    when the phone itself is longer than 10; or one leading [0]; otherwise
    it returns the phone.  The three spellings of one number agree. *)
Theorem normalize_for_comparison_rule (p : string) (Hcanon : clean_phone p = p) :
  (forall t, p = "+92" ++ t -> normalize_for_comparison p = t)
  /\ (forall t, p = "92" ++ t -> (10 < PyStr.len p)%nat -> normalize_for_comparison p = t)
  /\ (forall t, p = "0" ++ t -> normalize_for_comparison p = t)
  /\ (PyStr.startswith p "+92" = false ->
      PyStr.startswith p "92" = false \/ (PyStr.len p <= 10)%nat ->
      PyStr.startswith p "0" = false ->
      normalize_for_comparison p = p)
  /\ normalize_for_comparison "+923001234567" = normalize_for_comparison "03001234567"
  /\ normalize_for_comparison "03001234567" = normalize_for_comparison "3001234567".
Proof.
  unfold normalize_for_comparison. rewrite Hcanon. repeat split.
  - intros t ->. rewrite (startswith_app "+92" t). apply (slice_from_app "+92").
  - intros t -> Hlen. apply Nat.ltb_lt in Hlen.
    change (PyStr.startswith ("92" ++ t) "+92") with false.
    rewrite (startswith_app "92" t), Hlen. apply (slice_from_app "92").
  - intros t ->. change (PyStr.startswith ("0" ++ t) "+92") with false.
    change (PyStr.startswith ("0" ++ t) "92") with false.
    rewrite (startswith_app "0" t). apply (slice_from_app "0").
  - intros H1 H2 H3. rewrite H1, H3.
    destruct H2 as [-> | Hlen]; [reflexivity | ].
    apply Nat.ltb_ge in Hlen. rewrite Hlen, andb_false_r. reflexivity.
Qed.

Lemma normalize_for_comparison_rule_witness :
  normalize_for_comparison "923001234567" = "3001234567".
Proof.
  destruct (normalize_for_comparison_rule "923001234567" eq_refl) as (_ & H & _).
  apply (H "3001234567"); [reflexivity | simpl; lia].
Defined.

(** ** 12-hour and 24-hour clocks *)

Local Open Scope Z_scope.

Local Ltac finish_conv :=
  repeat match goal with
         | |- context [Z.eqb ?a ?b] => destruct (Z.eqb_spec a b); try lia
         | |- context [Z.ltb ?a ?b] => destruct (Z.ltb_spec a b); try lia
         end;
  simpl; repeat split; try lia; try reflexivity;
  try (left; reflexivity); try (right; reflexivity); try (repeat f_equal; lia).

(** C9.  The two conversions are inverse of each other on their ranges:
    24 to 12 and back on hours 0..23, 12 to 24 and back on hours 1..12 with
    AM or PM; each lands in the other's range; the rule is the standard
    one (12 AM is hour 0, 12 PM is hour 12, PM adds 12 unless the hour is
    12, AM changes the hour only when it is 12). *)
Theorem convert_roundtrip (h m : Z) (p : string) :
  (0 <= h <= 23 -> 0 <= m <= 59 ->
   forall h12 m12 p12, convert_24hr_to_12hr h m = (h12, m12, p12) ->
     convert_12hr_to_24hr h12 m12 p12 = (h, m)
     /\ 1 <= h12 <= 12 /\ m12 = m /\ (p12 = "AM" \/ p12 = "PM")%string)
  /\ (1 <= h <= 12 -> 0 <= m <= 59 -> (p = "AM" \/ p = "PM")%string ->
      forall h24 m24, convert_12hr_to_24hr h m p = (h24, m24) ->
        convert_24hr_to_12hr h24 m24 = (h, m, p) /\ 0 <= h24 <= 23 /\ m24 = m)
  /\ convert_12hr_to_24hr 12 m "AM" = (0, m)
  /\ convert_12hr_to_24hr 12 m "PM" = (12, m)
  /\ (h <> 12 -> convert_12hr_to_24hr h m "PM" = (h + 12, m))
  /\ (h <> 12 -> convert_12hr_to_24hr h m "AM" = (h, m)).
Proof.
  split; [ | split; [ | split; [ | split; [ | split]]]].
  - intros Hh Hm h12 m12 p12 Hc. unfold convert_24hr_to_12hr in Hc.
    destruct (Z.eqb_spec h 0);
      [ | destruct (Z.ltb_spec h 12); [ | destruct (Z.eqb_spec h 12)]];
      injection Hc as <- <- <-; unfold convert_12hr_to_24hr; simpl.
    + subst h. finish_conv.
    + finish_conv.
    + subst h. finish_conv.
    + destruct (Z.eqb_spec (h - 12) 12); [lia | ]. simpl.
      finish_conv.
  - intros Hh Hm Hp h24 m24 Hc. unfold convert_12hr_to_24hr in Hc.
    destruct Hp as [-> | ->]; simpl in Hc; destruct (Z.eqb_spec h 12);
      simpl in Hc; injection Hc as <- <-; unfold convert_24hr_to_12hr.
    + subst h. finish_conv.
    + destruct (Z.eqb_spec h 0); [lia | ]. destruct (Z.ltb_spec h 12); [ | lia].
      finish_conv.
    + subst h. finish_conv.
    + destruct (Z.eqb_spec (h + 12) 0); [lia | ].
      destruct (Z.ltb_spec (h + 12) 12); [lia | ].
      destruct (Z.eqb_spec (h + 12) 12); [lia | ].
      finish_conv.
  - reflexivity.
  - reflexivity.
  - intros Hh. unfold convert_12hr_to_24hr. simpl.
    destruct (Z.eqb_spec h 12); [contradiction | reflexivity].
  - intros Hh. unfold convert_12hr_to_24hr. simpl.
    destruct (Z.eqb_spec h 12); [contradiction | reflexivity].
Qed.

Lemma convert_roundtrip_witness :
  convert_12hr_to_24hr 11 59 "PM" = (23, 59)
  /\ convert_24hr_to_12hr 0 5 = (12, 5, "AM"%string).
Proof.
  split.
  - destruct (convert_roundtrip 23 59 "PM") as (H & _).
    apply (H ltac:(lia) ltac:(lia) 11 59 "PM"%string eq_refl).
  - destruct (convert_roundtrip 12 5 "AM") as (_ & H & _).
    apply (H ltac:(lia) ltac:(lia) (or_introl eq_refl) 0 5 eq_refl).
Defined.

(** ** Poll window *)

(** C2.  The state depends on [now], [start] and [end] only and is one of
    three: NOT_STARTED exactly when [now < start]; OPEN exactly when
    [start <= now <= end], both ends included; one second before [start] is
    NOT_STARTED; the remaining-time banner is shown exactly in the OPEN
    state.  For a window with [start <= end] (a saved configuration has
    [end > start]) the state is CLOSED exactly when [now > end], [start] and
    [end] themselves are OPEN and one second after [end] is CLOSED. *)
Theorem get_poll_state_window (now start end_ : Z) :
  (get_poll_state now start end_ = NOT_STARTED <-> now < start)
  /\ (get_poll_state now start end_ = OPEN <-> start <= now <= end_)
  /\ get_poll_state (start - 1) start end_ = NOT_STARTED
  /\ (timer_shown now start end_ = true <-> get_poll_state now start end_ = OPEN)
  /\ (start <= end_ ->
      (get_poll_state now start end_ = CLOSED <-> now > end_)
      /\ get_poll_state start start end_ = OPEN
      /\ get_poll_state end_ start end_ = OPEN
      /\ get_poll_state (end_ + 1) start end_ = CLOSED).
Proof.
  assert (Hst : forall n,
             (n < start /\ get_poll_state n start end_ = NOT_STARTED)
             \/ (start <= n <= end_ /\ get_poll_state n start end_ = OPEN)
             \/ (start <= n /\ n > end_ /\ get_poll_state n start end_ = CLOSED)).
  { intros n. unfold get_poll_state.
    destruct (Z.ltb_spec n start); [left; auto | right].
    destruct (Z.gtb_spec n end_); [right; split; [lia | split; [lia | reflexivity]] | left].
    split; [lia | reflexivity]. }
  assert (Hopen : forall n, get_poll_state n start end_ = OPEN <-> start <= n <= end_).
  { intros n. destruct (Hst n) as [[H1 ->] | [[H1 ->] | (H0 & H1 & ->)]];
      split; intros; try discriminate; try lia; reflexivity. }
  split.
  { destruct (Hst now) as [[H1 ->] | [[H1 ->] | (H0 & H1 & ->)]];
      split; intros; try discriminate; try lia; reflexivity. }
  split; [apply Hopen | ].
  split.
  { destruct (Hst (start - 1)) as [[H1 ->] | [[H1 _] | (H0 & _)]]; [reflexivity | lia | lia]. }
  split.
  { unfold timer_shown. rewrite andb_true_iff, !Z.leb_le. symmetry. apply Hopen. }
  intros Hwindow. split.
  { destruct (Hst now) as [[H1 ->] | [[H1 ->] | (H0 & H1 & ->)]];
      split; intros; try discriminate; try lia; reflexivity. }
  split; [apply Hopen; lia | ]. split; [apply Hopen; lia | ].
  destruct (Hst (end_ + 1)) as [[H1 _] | [[H1 _] | (_ & _ & ->)]]; [lia | lia | reflexivity].
Qed.

Lemma get_poll_state_window_witness :
  get_poll_state 100 100 200 = OPEN /\ get_poll_state 201 100 200 = CLOSED.
Proof.
  destruct (get_poll_state_window 0 100 200) as (_ & _ & _ & _ & H).
  destruct (H ltac:(lia)) as (_ & H1 & _ & H2).
  split; [exact H1 | exact H2].
Defined.

(** ** Responses *)

Local Open Scope nat_scope.

Lemma has_already_voted_rows d phone :
  has_already_voted d phone = false <-> rows_of phone d = [].
Proof.
  unfold has_already_voted, rows_of.
  induction (poll_results d) as [ | v l IH]; simpl; [tauto | ].
  destruct (String.eqb (v_phone v) phone); simpl; [ | exact IH].
  split; discriminate.
Qed.

Lemma rows_of_save_vote d phone response ts d' q :
  save_vote d phone response ts = Some d' ->
  rows_of q d' =
    (rows_of q d ++
     if String.eqb phone q
     then [{| v_phone := phone; v_response := response; v_timestamp := ts |}] else [])%list
  /\ has_already_voted d phone = false.
Proof.
  unfold save_vote. fold (has_already_voted d phone).
  destruct (has_already_voted d phone) eqn:Hv; [discriminate | ].
  intros [= <-]. split; [ | reflexivity].
  unfold rows_of. simpl. rewrite List.filter_app. simpl.
  destruct (String.eqb phone q); reflexivity.
Qed.

(** The vote screen changes the rows of a phone only by adding the first. *)
Lemma rows_of_attempt d a q :
  rows_of q (attempt_db d a) = rows_of q d
  \/ (rows_of q d = [] /\ a_phone a = q /\ exists r ts,
        rows_of q (attempt_db d a) = [{| v_phone := q; v_response := r; v_timestamp := ts |}]).
Proof.
  unfold attempt_db, show_user_interface.
  destruct (get_poll_state _ _ _); simpl; auto.
  destruct (has_already_voted d (a_phone a)) eqn:Hv; simpl; auto.
  destruct (a_submit a) as [r | ]; simpl; auto.
  destruct (save_vote d (a_phone a) r (strftime (a_now a))) as [d' | ] eqn:Hs; simpl; auto.
  apply (rows_of_save_vote _ _ _ _ _ q) in Hs as [Hs _]. rewrite Hs.
  destruct (String.eqb_spec (a_phone a) q) as [E | _].
  - right. subst q. apply has_already_voted_rows in Hv. rewrite Hv. simpl. eauto.
  - left. apply app_nil_r.
Qed.

Lemma rows_of_attempts l : forall d q v,
  rows_of q d = [v] -> rows_of q (attempts_db d l) = [v].
Proof.
  induction l as [ | a l IH]; intros d q v Hq; simpl; [exact Hq | ].
  apply IH. destruct (rows_of_attempt d a q) as [-> | (Hnil & _)]; [exact Hq | ].
  rewrite Hnil in Hq. discriminate.
Qed.

(** A successful login is for the cleaned input and a stored employee. *)
Lemma login_known hash_password d phone_input pass_input user_phone user_info :
  show_login_screen hash_password d phone_input pass_input = LoggedIn user_phone user_info ->
  user_phone = clean_phone phone_input /\ get_employee d user_phone = Some user_info.
Proof.
  unfold show_login_screen.
  destruct (is_empty phone_input || is_empty pass_input); [discriminate | ].
  destruct (negb (validate_phone _ _)); [discriminate | ].
  destruct (negb (String.eqb _ _)); [discriminate | ].
  destruct (get_employee d (clean_phone phone_input)) as [[ | a i] | ] eqn:He; try discriminate.
  intros [= <- <-]. split; [reflexivity | exact He].
Qed.

(** C1.  For a staff member whom the login accepted (a known employee),
    with the poll OPEN and no response stored for the phone, the submission
    succeeds and adds exactly one row.  After that and after any further
    uses of the vote screen by anybody, the phone still has exactly that
    one row; whatever the choice, the vote screen answers AlreadyRecorded
    when the poll is open, never records anything for the phone and leaves
    the database as it is; and the insert itself fails on the primary key
    without touching the row. *)
Theorem submit_response_once
    (hash_password : string -> string) (d : db) (phone_input pass_input : string)
    (user_phone : string) (user_info : info)
    (POLL_START POLL_END now : datetime) (choice : string)
    (Hknown : show_login_screen hash_password d phone_input pass_input
              = LoggedIn user_phone user_info)
    (Hopen : get_poll_state (instant now) (instant POLL_START) (instant POLL_END) = OPEN)
    (Hfirst : has_already_voted d user_phone = false) :
  let row := {| v_phone := user_phone; v_response := choice; v_timestamp := strftime now |} in
  exists d1,
    get_employee d user_phone = Some user_info
    /\ show_user_interface d user_phone POLL_START POLL_END now (Some choice)
      = (ResponseSubmitted, d1)
    /\ poll_results d1 = (poll_results d ++ [row])%list
    /\ rows_of user_phone d1 = [row]
    /\ forall (later : list attempt),
         let d2 := attempts_db d1 later in
         rows_of user_phone d2 = [row]
         /\ (forall S E now' choice',
               get_poll_state (instant now') (instant S) (instant E) = OPEN ->
               show_user_interface d2 user_phone S E now' (Some choice')
                 = (AlreadyRecorded, d2))
         /\ (forall S E now' submit,
               fst (show_user_interface d2 user_phone S E now' submit) <> ResponseSubmitted
               /\ snd (show_user_interface d2 user_phone S E now' submit) = d2)
         /\ (forall choice' ts, save_vote d2 user_phone choice' ts = None).
Proof.
  intros row.
  assert (Hsave : save_vote d user_phone choice (strftime now)
                  = Some (set_poll_results d (poll_results d ++ [row])%list)).
  { unfold save_vote. fold (has_already_voted d user_phone). now rewrite Hfirst. }
  eexists. split; [exact (proj2 (login_known _ _ _ _ _ _ Hknown)) | ]. split.
  { unfold show_user_interface. rewrite Hopen, Hfirst, Hsave. reflexivity. }
  split; [reflexivity | ].
  assert (Hrow : rows_of user_phone (set_poll_results d (poll_results d ++ [row])%list) = [row]).
  { apply (rows_of_save_vote _ _ _ _ _ user_phone) in Hsave as [-> _].
    apply has_already_voted_rows in Hfirst. rewrite Hfirst, String.eqb_refl. reflexivity. }
  split; [exact Hrow | ].
  intros later d2.
  assert (Hrow2 : rows_of user_phone d2 = [row]) by (apply rows_of_attempts; exact Hrow).
  assert (Hvoted : has_already_voted d2 user_phone = true).
  { destruct (has_already_voted d2 user_phone) eqn:Hv; [reflexivity | ].
    apply has_already_voted_rows in Hv. rewrite Hv in Hrow2. discriminate. }
  split; [exact Hrow2 | ]. split; [ | split].
  - intros S E now' choice' HO. unfold show_user_interface. now rewrite HO, Hvoted.
  - intros S E now' submit. unfold show_user_interface.
    destruct (get_poll_state (instant now') (instant S) (instant E)); simpl;
      try (split; [discriminate | reflexivity]).
    rewrite Hvoted. simpl. split; [discriminate | reflexivity].
  - intros choice' ts. unfold save_vote. fold (has_already_voted d2 user_phone).
    now rewrite Hvoted.
Qed.

Lemma submit_response_once_witness :
  exists d1,
    show_user_interface one_employee "+923001234567" window_start window_end
      (at_time 2026 1 15 12 0) (Some "I am okay and safe.") = (ResponseSubmitted, d1)
    /\ forall choice' ts, save_vote d1 "+923001234567" choice' ts = None.
Proof.
  destruct (submit_response_once (fun s => s) one_employee "+92 300 1234567" "ykk123"
              "+923001234567" ayesha window_start window_end (at_time 2026 1 15 12 0)
              "I am okay and safe."
              ltac:(vm_compute; reflexivity) ltac:(vm_compute; reflexivity)
              ltac:(vm_compute; reflexivity))
    as (d1 & _ & Hsub & _ & _ & Hlater).
  exists d1. split; [exact Hsub | ].
  destruct (Hlater []) as (_ & _ & _ & Hpk). exact Hpk.
Defined.

(** C3.  The specification has at most one stored response per employee.  The
    roster holds one employee under ["03001234567"].  The login accepts
    ["+923001234567"] for that employee through the normalized lookup and
    the vote is stored under that spelling; a later login as
    ["03001234567"] finds no row for its spelling and votes again.  Two
    responses are stored for one employee. *)
Theorem two_responses_for_one_employee (hash_password : string -> string) :
  exists d1 d2,
    show_login_screen hash_password one_employee "+923001234567" "ykk123"
      = LoggedIn "+923001234567" ayesha
    /\ show_user_interface one_employee "+923001234567" window_start window_end
         (at_time 2026 1 15 12 0) (Some "I am okay and safe.") = (ResponseSubmitted, d1)
    /\ show_login_screen hash_password d1 "03001234567" "ykk123"
         = LoggedIn "03001234567" ayesha
    /\ show_user_interface d1 "03001234567" window_start window_end
         (at_time 2026 1 15 12 5) (Some "I am stuck and help is needed.")
         = (ResponseSubmitted, d2)
    /\ map v_phone (poll_results d2) = ["+923001234567"; "03001234567"]
    /\ map v_response (poll_results d2)
         = ["I am okay and safe."; "I am stuck and help is needed."]
    /\ normalize_for_comparison "+923001234567" = normalize_for_comparison "03001234567"
    /\ get_employee d2 "+923001234567" = Some ayesha
    /\ get_employee d2 "03001234567" = Some ayesha
    /\ get_total_employees d2 = 1.
Proof.
  eexists. eexists.
  split; [unfold show_login_screen; cbv zeta; rewrite String.eqb_refl; reflexivity | ].
  split; [vm_compute; reflexivity | ].
  split; [unfold show_login_screen; cbv zeta; rewrite String.eqb_refl; reflexivity | ].
  split; [vm_compute; reflexivity | ].
  repeat split.
Qed.

(** ** Roster upload *)

Section Roster.

Lemma find_app_first {A} (f : A -> bool) (l1 l2 : list A) :
  find f (l1 ++ l2) = match find f l1 with Some x => Some x | None => find f l2 end.
Proof.
  induction l1 as [ | x l1 IH]; simpl; [reflexivity | ].
  destruct (f x); [reflexivity | exact IH].
Qed.

Lemma existsb_find (p : string) (l : list (string * info)) :
  existsb (fun e => String.eqb (fst e) p) l = true <-> find (has_phone p) l <> None.
Proof.
  unfold has_phone. induction l as [ | e l IH]; simpl; [split; [discriminate | congruence] | ].
  destruct (String.eqb (fst e) p); simpl; [split; [discriminate | reflexivity] | exact IH].
Qed.

Lemma fold_insert_find (l : list (string * info)) : forall acc p,
  find (has_phone p) (fold_left insert_or_ignore l acc)
  = match find (has_phone p) acc with
    | Some e => Some e
    | None => find (has_phone p) l
    end.
Proof.
  induction l as [ | a l IH]; intros acc p; simpl.
  - now destruct (find (has_phone p) acc).
  - rewrite IH. unfold insert_or_ignore.
    destruct (existsb (fun e => String.eqb (fst e) (fst a)) acc) eqn:Hex.
    + destruct (find (has_phone p) acc) eqn:Hf; [reflexivity | ].
      unfold has_phone at 2. destruct (String.eqb_spec (fst a) p) as [E | _]; [ | reflexivity].
      apply existsb_find in Hex. rewrite E in Hex. contradiction.
    + rewrite find_app_first. destruct (find (has_phone p) acc); [reflexivity | ].
      simpl. now destruct (has_phone p a).
Qed.

Lemma fold_insert_In (l : list (string * info)) : forall acc e,
  In e (fold_left insert_or_ignore l acc) -> In e acc \/ In e l.
Proof.
  induction l as [ | a l IH]; intros acc e H; simpl in *; [auto | ].
  apply IH in H as [H | H]; [ | auto].
  unfold insert_or_ignore in H.
  destruct (existsb _ acc); [auto | ].
  apply in_app_or in H as [H | [H | []]]; auto.
Qed.

Lemma fold_insert_NoDup (l : list (string * info)) : forall acc,
  List.NoDup (map fst acc) -> List.NoDup (map fst (fold_left insert_or_ignore l acc)).
Proof.
  induction l as [ | a l IH]; intros acc H; simpl; [exact H | ].
  apply IH. unfold insert_or_ignore.
  destruct (existsb (fun e => String.eqb (fst e) (fst a)) acc) eqn:Hex; [exact H | ].
  rewrite map_app. simpl. apply List.NoDup_app; [exact H | repeat constructor; intros [] | ].
  intros q Hq [<- | []]. apply in_map_iff in Hq as (e & He & Hin).
  assert (Hex' : existsb (fun e => String.eqb (fst e) (fst a)) acc = true).
  { apply existsb_exists. exists e. split; [exact Hin | ]. rewrite He. apply String.eqb_refl. }
  congruence.
Qed.

(** Rows with pairwise distinct phones, none of them stored, are all appended. *)
Lemma fold_insert_distinct (l : list (string * info)) : forall acc,
  List.NoDup (map fst l) -> (forall e, In e l -> ~ In (fst e) (map fst acc)) ->
  fold_left insert_or_ignore l acc = (acc ++ l)%list.
Proof.
  induction l as [ | a l IH]; intros acc Hnd Hfresh; simpl.
  - now rewrite app_nil_r.
  - simpl in Hnd. apply NoDup_cons_iff in Hnd as [Ha Hnd].
    assert (Hins : insert_or_ignore acc a = (acc ++ [a])%list).
    { unfold insert_or_ignore.
      destruct (existsb (fun e => String.eqb (fst e) (fst a)) acc) eqn:Hex; [ | reflexivity].
      apply existsb_exists in Hex as (e & Hin & He). apply String.eqb_eq in He.
      exfalso. apply (Hfresh a (or_introl eq_refl)). rewrite <- He. now apply in_map. }
    rewrite Hins, IH, <- app_assoc; [reflexivity | exact Hnd | ].
    intros e He Hin. rewrite map_app in Hin. apply in_app_or in Hin as [Hin | [Hin | []]].
    + apply (Hfresh e (or_intror He) Hin).
    + apply Ha. rewrite Hin. now apply in_map.
Qed.

End Roster.

(** C7.  Every row's phone is cleaned and then validated under the stored
    mode.  The rows that fail are reported and never stored; the number
    announced is that of the rows that pass; of several valid rows with one
    phone the first is stored and the others are dropped without a report;
    the new roster does not depend on the old one; responses and settings
    are untouched.  When the valid rows have distinct phones the roster is
    exactly those rows, so 3 valid rows and 2 invalid ones give a count of
    3, 2 reported rows and a roster of exactly the 3 rows. *)
Theorem replace_roster_spec (d : db) (rows : list upload_row) :
  let mode := get_setting_or d "validation_mode" DEFAULT_PHONE_VALIDATION_MODE in
  let cleaned := map (fun r => (clean_phone (py_str (cell r)), attrs r)) rows in
  let valid := List.filter (fun r => validate_phone (fst r) mode) cleaned in
  let accepted_count := fst (fst (replace_roster d rows)) in
  let rejected := snd (fst (replace_roster d rows)) in
  let d' := snd (replace_roster d rows) in
  accepted_count = length valid
  /\ (accepted_count + length rejected = length rows)%nat
  /\ (forall r, In r rejected <-> In r cleaned /\ validate_phone (fst r) mode = false)
  /\ (forall e, In e (employees d') -> In e cleaned /\ validate_phone (fst e) mode = true)
  /\ (forall p, find (has_phone p) (employees d') = find (has_phone p) valid)
  /\ List.NoDup (map fst (employees d'))
  /\ (forall prior, employees (snd (replace_roster (set_employees d prior) rows)) = employees d')
  /\ poll_results d' = poll_results d /\ settings d' = settings d
  /\ (List.NoDup (map fst valid) -> employees d' = valid)
  /\ (length valid = 3%nat -> length rejected = 2%nat -> List.NoDup (map fst valid) ->
      accepted_count = 3%nat /\ length rejected = 2%nat /\ length rows = 5%nat
      /\ employees d' = valid /\ length (employees d') = 3%nat).
Proof.
  intros mode cleaned valid accepted_count rejected d'.
  assert (Hcount : (length valid + length rejected = length rows)%nat).
  { subst valid rejected. unfold replace_roster, invalid_phones, clean_rows. simpl.
    fold mode. fold cleaned. rewrite <- (length_map (fun r => (clean_phone (py_str (cell r)), attrs r)) rows).
    fold cleaned. clear. induction cleaned as [ | r l IH]; simpl; [reflexivity | ].
    destruct (validate_phone (fst r) mode); simpl; lia. }
  assert (Hdistinct : List.NoDup (map fst valid) -> employees d' = valid).
  { intros Hnd. subst d'. unfold replace_roster, confirm_upload. simpl.
    apply (fold_insert_distinct valid []); [exact Hnd | intros e _ []]. }
  split; [reflexivity | ]. split; [exact Hcount | ].
  split.
  { intros r. subst rejected. unfold replace_roster, invalid_phones. simpl.
    rewrite filter_In, negb_true_iff. reflexivity. }
  split.
  { intros e He. subst d'. unfold replace_roster, confirm_upload in He. simpl in He.
    apply fold_insert_In in He as [[] | He]. apply filter_In in He. exact He. }
  split.
  { intros p. subst d'. unfold replace_roster, confirm_upload. simpl.
    apply (fold_insert_find _ [] p). }
  split.
  { subst d'. unfold replace_roster, confirm_upload. simpl.
    apply fold_insert_NoDup. constructor. }
  split; [reflexivity | ]. split; [reflexivity | ]. split; [reflexivity | ].
  split; [exact Hdistinct | ].
  intros H3 H2 Hnd. rewrite (Hdistinct Hnd).
  repeat split; try assumption. change accepted_count with (length valid) in *. lia.
Qed.

Lemma replace_roster_spec_witness :
  fst (fst (replace_roster one_employee sample_upload)) = 3%nat
  /\ length (snd (fst (replace_roster one_employee sample_upload))) = 2%nat
  /\ employees (snd (replace_roster one_employee sample_upload))
     = [("03001234567", [("Name", Some "Ayesha")]);
        ("+923017654321", [("Name", Some "Danish")]);
        ("03211112222", [("Name", Some "Fatima")])].
Proof.
  destruct (replace_roster_spec one_employee sample_upload)
    as (_ & _ & _ & _ & _ & _ & _ & _ & _ & _ & H).
  destruct H as (H3 & H2 & _ & Hroster & _).
  - vm_compute. reflexivity.
  - vm_compute. reflexivity.
  - vm_compute. repeat constructor; simpl; intuition discriminate.
  - split; [exact H3 | ]. split; [exact H2 | ]. rewrite Hroster. vm_compute. reflexivity.
Defined.

(** ** Saving the settings *)

Section Settings.
Context `{Pytz}.

Lemma save_settings_failure_keeps_db (d : db) (st : draft) :
  fst (save_settings_to_db d st) <> SettingsSaved -> snd (save_settings_to_db d st) = d.
Proof.
  unfold save_settings_to_db.
  destruct (tz_known (settings_timezone st)); simpl; [ | reflexivity].
  destruct (draft_times st) as [[s_time e_time] | ]; [ | reflexivity].
  destruct (_ <=? _)%Z; simpl; [reflexivity | congruence].
Qed.

End Settings.

Lemma st_toast_raises `{Streamlit} : st_toast TOAST_ICON = None.
Proof. unfold st_toast. now rewrite toast_icon_rejected. Qed.

(** C6.  The specification has a successful save clear the draft.  With a
    draft whose zone is known and whose times compose, saving fails with
    the end-not-after-start error whenever the composed end is not later
    than the composed start (equal, or one second earlier), the database
    and the draft staying as they were; it succeeds exactly when the end is
    later, and then the six keys hold the draft's values and all other data
    is untouched.  "Save & Switch" then deletes the draft.  "Save All
    Settings" does not: its toast raises before the deletion, so the draft
    stays in the session and [saving_in_progress] stays set.  Whatever the
    draft, a save that does not succeed changes nothing. *)
Theorem save_settings_requires_end_after_start `{Pytz} `{Streamlit}
    (d : db) (ss : session) (st : draft) (s_time e_time : time)
    (Hdraft : settings_keys ss = Some st)
    (Htz : tz_known (settings_timezone st) = true)
    (Htimes : draft_times st = Some (s_time, e_time)) :
  let tz_name := settings_timezone st in
  let new_start := localize tz_name (combine (settings_start_date st) s_time) in
  let new_end := localize tz_name (combine (settings_end_date st) e_time) in
  ((instant new_end <= instant new_start)%Z ->
     save_settings_to_db d st = (EndNotAfterStart, d)
     /\ save_all_settings d ss = (EndNotAfterStart, d, ss, false)
     /\ save_and_switch d ss = (EndNotAfterStart, d, ss))
  /\ ((instant new_end = instant new_start)%Z -> save_settings_to_db d st = (EndNotAfterStart, d))
  /\ ((instant new_end = instant new_start - 1)%Z -> save_settings_to_db d st = (EndNotAfterStart, d))
  /\ ((instant new_end > instant new_start)%Z ->
      exists d' ss2,
        save_settings_to_db d st = (SettingsSaved, d')
        /\ settings d' !! "poll_start" = Some (strftime new_start)
        /\ settings d' !! "poll_end" = Some (strftime new_end)
        /\ settings d' !! "validation_mode" = Some (settings_validation st)
        /\ settings d' !! "timezone" = Some tz_name
        /\ settings d' !! "time_format" = Some (settings_time_format st)
        /\ settings d' !! "col_phone" = Some (PyStr.strip (settings_col_phone st))
        /\ (forall k, ~ In k six_keys -> settings d' !! k = settings d !! k)
        /\ poll_results d' = poll_results d /\ employees d' = employees d
        /\ save_all_settings d ss = (SettingsSaved, d', ss, true)
        /\ settings_keys ss = Some st
        /\ save_and_switch d ss = (SettingsSaved, d', ss2) /\ settings_keys ss2 = None)
  /\ (fst (save_settings_to_db d st) = SettingsSaved <-> (instant new_end > instant new_start)%Z)
  /\ (forall d0 st0, fst (save_settings_to_db d0 st0) <> SettingsSaved ->
        snd (save_settings_to_db d0 st0) = d0).
Proof.
  intros tz_name new_start new_end.
  set (i_start := instant new_start). set (i_end := instant new_end).
  assert (Hsave : save_settings_to_db d st =
            if (i_end <=? i_start)%Z then (EndNotAfterStart, d)
            else (SettingsSaved,
                  set_setting (set_setting (set_setting (set_setting (set_setting (set_setting d
                    "poll_start" (strftime new_start)) "poll_end" (strftime new_end))
                    "validation_mode" (settings_validation st)) "timezone" tz_name)
                    "time_format" (settings_time_format st))
                    "col_phone" (PyStr.strip (settings_col_phone st)))).
  { unfold save_settings_to_db. rewrite Htz, Htimes. reflexivity. }
  assert (Hfail : (i_end <= i_start)%Z -> save_settings_to_db d st = (EndNotAfterStart, d)).
  { intros Hle. rewrite Hsave. apply Z.leb_le in Hle. now rewrite Hle. }
  assert (Hok : (i_end > i_start)%Z -> fst (save_settings_to_db d st) = SettingsSaved).
  { intros Hgt. rewrite Hsave. destruct (Z.leb_spec i_end i_start); [lia | reflexivity]. }
  split.
  { intros Hle. specialize (Hfail Hle). split; [exact Hfail | ].
    unfold save_all_settings, save_and_switch. rewrite Hdraft, Hfail. split; reflexivity. }
  split; [intros Heq; apply Hfail; lia | ].
  split; [intros Heq; apply Hfail; lia | ].
  split.
  { intros Hgt. unfold save_all_settings, save_and_switch.
    rewrite Hdraft, Hsave, st_toast_raises.
    destruct (Z.leb_spec i_end i_start); [lia | ].
    eexists. eexists.
    split; [reflexivity | ].
    unfold set_setting, set_settings. simpl.
    repeat (split; [by simplify_map_eq | ]).
    split.
    { intros k Hk. unfold six_keys in Hk. simpl in Hk.
      rewrite !lookup_insert_ne; [reflexivity | intros <-; tauto ..]. }
    repeat split. }
  split.
  { split; [ | exact Hok].
    intros Hs. destruct (Z.leb_spec i_end i_start) as [Hle | Hgt]; [ | lia].
    rewrite (Hfail Hle) in Hs. discriminate. }
  intros d0 st0. apply save_settings_failure_keeps_db.
Qed.

Lemma save_settings_requires_end_after_start_witness :
  @save_settings_to_db two_zones one_employee (set_end DEFAULT_POLL_START default_draft)
    = (EndNotAfterStart, one_employee)
  /\ @save_all_settings two_zones check_mark_only one_employee (on_settings_tab default_draft)
     = (SettingsSaved, saved_defaults, on_settings_tab default_draft, true)
  /\ settings_keys (on_settings_tab default_draft) = Some default_draft.
Proof.
  split.
  - destruct (@save_settings_requires_end_after_start two_zones check_mark_only one_employee
                (on_settings_tab (set_end DEFAULT_POLL_START default_draft))
                (set_end DEFAULT_POLL_START default_draft)
                (dt_time DEFAULT_POLL_START) (dt_time DEFAULT_POLL_START)
                eq_refl eq_refl eq_refl) as (_ & Hequal & _).
    apply Hequal. reflexivity.
  - destruct (@save_settings_requires_end_after_start two_zones check_mark_only one_employee
                (on_settings_tab default_draft) default_draft
                (dt_time DEFAULT_POLL_START) (dt_time DEFAULT_POLL_END)
                eq_refl eq_refl eq_refl) as (_ & _ & _ & Hsaved & _).
    destruct (Hsaved ltac:(reflexivity))
      as (d' & ss2 & Hsave & _ & _ & _ & _ & _ & _ & _ & _ & _ & Hall & Hkeys & _).
    split; [ | exact Hkeys].
    rewrite Hall. f_equal. f_equal. f_equal.
    unfold saved_defaults. now rewrite Hsave.
Defined.

(** ** Unsaved changes *)

Lemma mk_time_24_12_24 (t : time) :
  whole_minute t ->
  (let '(h12, m, p) := convert_24hr_to_12hr (hour t) (minute t) in
   let '(h, m') := convert_12hr_to_24hr h12 m p in mk_time h m') = Some t.
Proof.
  destruct t as [h m s]. unfold whole_minute. simpl. intros (Hh & Hm & ->).
  unfold convert_24hr_to_12hr.
  destruct (Z.eqb_spec h 0);
    [ | destruct (Z.ltb_spec h 12); [ | destruct (Z.eqb_spec h 12)]];
    unfold convert_12hr_to_24hr; simpl;
    repeat match goal with
           | |- context [Z.eqb ?a ?b] => destruct (Z.eqb_spec a b); try lia
           end; simpl; unfold mk_time;
    match goal with
    | |- (if ?c then _ else _) = _ =>
        replace c with true by (symmetry; repeat (apply andb_true_intro; split); apply Z.leb_le; lia)
    end; f_equal; f_equal; lia.
Qed.

Section Unsaved.
Context `{Pytz}.

(** The answer depends on the time fields through [draft_times] only. *)
Lemma check_settings_changed_times (d : db) (st st' : draft) :
  settings_timezone st' = settings_timezone st ->
  settings_time_format st' = settings_time_format st ->
  settings_validation st' = settings_validation st ->
  settings_col_phone st' = settings_col_phone st ->
  settings_start_date st' = settings_start_date st ->
  settings_end_date st' = settings_end_date st ->
  draft_times st' = draft_times st ->
  check_settings_changed d (Some st') = check_settings_changed d (Some st).
Proof.
  intros Htz Hfmt Hval Hcol Hsd Hed Hdt. unfold check_settings_changed.
  rewrite Htz, Hfmt, Hval, Hcol, Hsd, Hed, Hdt. reflexivity.
Qed.

Lemma differs_true (a : string) (b : string) : differs a (Some b) = true <-> a <> b.
Proof.
  unfold differs. rewrite negb_true_iff.
  destruct (String.eqb_spec a b); split; congruence.
Qed.

Lemma neqb_true (a b : string) : negb (String.eqb a b) = true <-> a <> b.
Proof. rewrite negb_true_iff. destruct (String.eqb_spec a b); split; congruence. Qed.

End Unsaved.

Lemma sync_to_24 (st : draft) :
  settings_time_input st <> "24" ->
  sync_time_input (set_time_input "24" st)
  = match draft_times st with
    | Some (s_time, e_time) => Some (set_times_24 s_time e_time (set_time_input "24" st))
    | None => None
    end.
Proof.
  intros H12. apply String.eqb_neq in H12.
  unfold draft_times, sync_time_input. rewrite H12. simpl.
  destruct (convert_12hr_to_24hr (settings_start_hour st) _ _) as [h m].
  destruct (mk_time h m) as [s24 | ]; [ | reflexivity].
  destruct (convert_12hr_to_24hr (settings_end_hour st) _ _) as [h' m'].
  destruct (mk_time h' m') as [e24 | ]; reflexivity.
Qed.

Lemma draft_times_sync_to_12 (st : draft) :
  whole_minute (settings_start_time_24 st) -> whole_minute (settings_end_time_24 st) ->
  exists st12,
    sync_time_input (set_time_input "12" st) = Some st12
    /\ draft_times st12 = Some (settings_start_time_24 st, settings_end_time_24 st)
    /\ settings_timezone st12 = settings_timezone st
    /\ settings_time_format st12 = settings_time_format st
    /\ settings_validation st12 = settings_validation st
    /\ settings_col_phone st12 = settings_col_phone st
    /\ settings_start_date st12 = settings_start_date st
    /\ settings_end_date st12 = settings_end_date st.
Proof.
  intros Hs He. eexists. split; [reflexivity | ]. split; [ | repeat split].
  unfold draft_times. simpl.
  pose proof (mk_time_24_12_24 _ Hs) as Hs'. pose proof (mk_time_24_12_24 _ He) as He'.
  destruct (convert_24hr_to_12hr (hour (settings_start_time_24 st)) _) as [[h12 m] p].
  destruct (convert_24hr_to_12hr (hour (settings_end_time_24 st)) _) as [[h12' m'] p'].
  simpl.
  destruct (convert_12hr_to_24hr h12 m p) as [h k].
  destruct (convert_12hr_to_24hr h12' m' p') as [h' k'].
  rewrite Hs', He'. reflexivity.
Qed.

(** C8, as stated, fails: the draft's phone column name ["Phone "] differs
    from the persisted ["Phone"], every other field being the persisted
    one, and the answer is "no unsaved changes". *)
Lemma check_settings_changed_counterexample :
  get_setting_or saved_defaults "col_phone" DEFAULT_COL_PHONE = "Phone"
  /\ settings_col_phone (set_col_phone "Phone " default_draft) = "Phone "
  /\ settings_col_phone (set_col_phone "Phone " default_draft)
     <> get_setting_or saved_defaults "col_phone" DEFAULT_COL_PHONE
  /\ @check_settings_changed two_zones saved_defaults
       (Some (set_col_phone "Phone " default_draft)) = false.
Proof.
  split; [vm_compute; reflexivity | ]. split; [reflexivity | ].
  split; [vm_compute; discriminate | vm_compute; reflexivity].
Qed.

(** With nothing saved yet, the draft made from the default configuration is
    reported as changed: the saved start and end are read without their
    defaults. *)
Lemma check_settings_changed_nothing_saved :
  settings one_employee = ∅
  /\ @check_settings_changed two_zones one_employee (Some default_draft) = true.
Proof. split; [reflexivity | vm_compute; reflexivity]. Qed.

(** C8 (amended).  With the start and end keys stored, a known zone and
    times that compose, the answer is "changed" exactly when the zone, the
    display format, the validation mode, the phone column name with its
    surrounding whitespace removed, or the composed start or end rendered as
    [%Y-%m-%d %H:%M:%S] differs from the stored value.  Switching the input
    mode converts the other representation and does not change the answer
    (from 24-hour input, for times of whole minutes). *)
Theorem check_settings_changed_iff `{Pytz}
    (d : db) (st : draft) (s_time e_time : time) (saved_start saved_end : string)
    (Htz : tz_known (settings_timezone st) = true)
    (Htimes : draft_times st = Some (s_time, e_time))
    (Hstart : get_setting d "poll_start" = Some saved_start)
    (Hend : get_setting d "poll_end" = Some saved_end) :
  let tz := settings_timezone st in
  let current_start_str := strftime (localize tz (combine (settings_start_date st) s_time)) in
  let current_end_str := strftime (localize tz (combine (settings_end_date st) e_time)) in
  (check_settings_changed d (Some st) = true <->
     settings_timezone st <> get_setting_or d "timezone" DEFAULT_TIMEZONE
     \/ settings_time_format st <> get_setting_or d "time_format" DEFAULT_TIME_FORMAT
     \/ settings_validation st <> get_setting_or d "validation_mode" DEFAULT_PHONE_VALIDATION_MODE
     \/ PyStr.strip (settings_col_phone st) <> get_setting_or d "col_phone" DEFAULT_COL_PHONE
     \/ current_start_str <> saved_start
     \/ current_end_str <> saved_end)
  /\ (settings_time_input st <> "24" ->
      exists st24,
        sync_time_input (set_time_input "24" st) = Some st24
        /\ draft_times st24 = Some (s_time, e_time)
        /\ check_settings_changed d (Some st24) = check_settings_changed d (Some st))
  /\ (settings_time_input st = "24" -> whole_minute s_time -> whole_minute e_time ->
      exists st12,
        sync_time_input (set_time_input "12" st) = Some st12
        /\ draft_times st12 = Some (s_time, e_time)
        /\ check_settings_changed d (Some st12) = check_settings_changed d (Some st)).
Proof.
  intros tz current_start_str current_end_str. split; [ | split].
  - unfold check_settings_changed. rewrite Hstart, Hend, Htz, Htimes.
    fold tz. fold current_start_str. fold current_end_str.
    destruct (negb (String.eqb tz _) || _ || _ || _) eqn:Hquick.
    + split; [intros _ | reflexivity].
      rewrite !orb_true_iff, !neqb_true in Hquick. tauto.
    + rewrite !orb_false_iff, !negb_false_iff, !String.eqb_eq in Hquick.
      destruct Hquick as (((-> & ->) & ->) & ->). cbn [negb].
      rewrite orb_true_iff, !differs_true. tauto.
  - intros H12. rewrite (sync_to_24 st H12), Htimes.
    eexists. split; [reflexivity | ]. split; [reflexivity | ].
    apply check_settings_changed_times; try reflexivity.
    rewrite Htimes. reflexivity.
  - intros H24 Hs He. apply String.eqb_eq in H24.
    unfold draft_times in Htimes. rewrite H24 in Htimes. injection Htimes as <- <-.
    destruct (draft_times_sync_to_12 st Hs He)
      as (st12 & Hsync & Hdt & E1 & E2 & E3 & E4 & E5 & E6).
    exists st12. split; [exact Hsync | ]. split; [exact Hdt | ].
    apply check_settings_changed_times; try assumption.
    rewrite Hdt. unfold draft_times. now rewrite H24.
Qed.

Lemma check_settings_changed_iff_witness :
  @check_settings_changed two_zones saved_defaults
    (Some (set_end DEFAULT_POLL_START default_draft)) = true.
Proof.
  destruct (@check_settings_changed_iff two_zones saved_defaults
              (set_end DEFAULT_POLL_START default_draft)
              (dt_time DEFAULT_POLL_START) (dt_time DEFAULT_POLL_START)
              "2026-01-01 09:00:00" "2026-01-31 18:00:00"
              eq_refl eq_refl
              ltac:(vm_compute; reflexivity) ltac:(vm_compute; reflexivity)) as (Hiff & _).
  apply Hiff. do 5 right. vm_compute. discriminate.
Defined.

(** * Further properties *)

(** ** Cleaning a phone *)

Section Cleaning.
Import PyStr.

Lemma str_forall_impl (P Q : ascii -> bool) s :
  (forall c, P c = true -> Q c = true) -> str_forall P s = true -> str_forall Q s = true.
Proof.
  intros HPQ. induction s as [ | c t IH]; simpl; [reflexivity | ].
  rewrite !andb_true_iff. intros [Hc Ht]. auto.
Qed.

Lemma str_forall_and (P Q : ascii -> bool) s :
  str_forall (fun c => P c && Q c) s = true <->
  str_forall P s = true /\ str_forall Q s = true.
Proof.
  induction s as [ | c t IH]; simpl; [tauto | ].
  rewrite !andb_true_iff, IH. tauto.
Qed.

Lemma str_forall_lstrip P s : str_forall P s = true -> str_forall P (lstrip s) = true.
Proof.
  induction s as [ | c t IH]; simpl; [reflexivity | ].
  rewrite andb_true_iff. intros [Hc Ht].
  destruct (isspace c); [auto | ]. simpl. now rewrite Hc, Ht.
Qed.

Lemma str_forall_rstrip P s : str_forall P s = true -> str_forall P (rstrip s) = true.
Proof.
  induction s as [ | c t IH]; simpl; [reflexivity | ].
  rewrite andb_true_iff. intros [Hc Ht]. specialize (IH Ht).
  destruct (rstrip t) as [ | c' t'].
  - destruct (isspace c); simpl; [reflexivity | now rewrite Hc].
  - simpl in *. now rewrite Hc, IH.
Qed.

Lemma str_forall_remove P x s : str_forall P s = true -> str_forall P (remove x s) = true.
Proof.
  induction s as [ | c t IH]; simpl; [reflexivity | ].
  rewrite andb_true_iff. intros [Hc Ht].
  destruct (Ascii.eqb c x); [auto | ]. simpl. rewrite Hc. auto.
Qed.

Lemma remove_gone x s : str_forall (fun c => negb (Ascii.eqb c x)) (remove x s) = true.
Proof.
  induction s as [ | c t IH]; simpl; [reflexivity | ].
  destruct (Ascii.eqb c x) eqn:E; [exact IH | ]. simpl. now rewrite E.
Qed.

Lemma remove_absent x s :
  str_forall (fun c => negb (Ascii.eqb c x)) s = true -> remove x s = s.
Proof.
  induction s as [ | c t IH]; simpl; [reflexivity | ].
  rewrite andb_true_iff, negb_true_iff. intros [-> Ht]. now rewrite IH.
Qed.

Lemma strip_solid s : str_forall (fun c => negb (isspace c)) s = true -> strip s = s.
Proof.
  intros H. unfold strip.
  assert (Hl : lstrip s = s).
  { destruct s as [ | c t]; [reflexivity | ]. simpl in *.
    apply andb_true_iff in H as [Hc _]. apply negb_true_iff in Hc. now rewrite Hc. }
  rewrite Hl. induction s as [ | c t IH]; simpl; [reflexivity | ].
  simpl in H. apply andb_true_iff in H as [Hc Ht]. apply negb_true_iff in Hc.
  rewrite IH; [ | exact Ht | ].
  - destruct t; [now rewrite Hc | reflexivity].
  - destruct t as [ | c' t']; [reflexivity | ]. simpl in *.
    apply andb_true_iff in Ht as [Hc' _]. apply negb_true_iff in Hc'. now rewrite Hc'.
Qed.

(** A string without whitespace and without separators is left as it is. *)
Lemma clean_phone_fixed s :
  str_forall (fun c => negb (isspace c)) s = true ->
  str_forall (fun c => negb (separator c)) s = true ->
  clean_phone s = s.
Proof.
  intros Hs Hsep. unfold clean_phone. rewrite (strip_solid s Hs).
  assert (Hx : forall x, separator x = true ->
               str_forall (fun c => negb (Ascii.eqb c x)) s = true).
  { intros x Hx. revert Hsep. apply str_forall_impl. intros c Hc.
    apply negb_true_iff in Hc. apply negb_true_iff.
    destruct (Ascii.eqb_spec c x) as [-> | _]; [congruence | reflexivity]. }
  rewrite (remove_absent " " s), (remove_absent "-" s), (remove_absent "(" s),
    (remove_absent ")" s); auto.
Qed.

Lemma clean_phone_separators s :
  str_forall (fun c => negb (separator c)) (clean_phone s) = true.
Proof.
  unfold clean_phone.
  set (s0 := strip s). set (s1 := remove " " s0). set (s2 := remove "-" s1).
  set (s3 := remove "(" s2).
  assert (H1 : str_forall (fun c => negb (Ascii.eqb c " ")) (remove ")" s3) = true).
  { do 3 apply str_forall_remove. apply remove_gone. }
  assert (H2 : str_forall (fun c => negb (Ascii.eqb c "-")) (remove ")" s3) = true).
  { do 2 apply str_forall_remove. apply remove_gone. }
  assert (H3 : str_forall (fun c => negb (Ascii.eqb c "(")) (remove ")" s3) = true).
  { apply str_forall_remove. apply remove_gone. }
  pose proof (remove_gone ")" s3) as H4.
  revert H1 H2 H3 H4. generalize (remove ")" s3). intros r.
  induction r as [ | c t IH]; simpl; [reflexivity | ].
  rewrite !andb_true_iff. intros [A1 B1] [A2 B2] [A3 B3] [A4 B4].
  split; [ | auto]. unfold separator.
  apply negb_true_iff in A1, A2, A3, A4. now rewrite A1, A2, A3, A4.
Qed.

End Cleaning.

(** X1.  Whatever the input, the cleaned phone contains no space, dash or
    parenthesis, and a string that has no whitespace and none of these
    characters is returned unchanged. *)
Theorem clean_phone_canonical (s : string) :
  str_forall (fun c => negb (separator c)) (clean_phone s) = true
  /\ (str_forall (fun c => negb (PyStr.isspace c)) s = true ->
      str_forall (fun c => negb (separator c)) s = true ->
      clean_phone s = s).
Proof. split; [apply clean_phone_separators | apply clean_phone_fixed]. Qed.

Lemma clean_phone_canonical_witness : clean_phone "+923001234567" = "+923001234567".
Proof.
  apply (proj2 (clean_phone_canonical "+923001234567")); reflexivity.
Defined.

(** X2.  Cleaning twice is cleaning once for every input whose only
    whitespace characters are plain spaces.  It is not so in general: a
    tab protected by a dash survives the first cleaning and goes in the
    second. *)
Theorem clean_phone_idempotent (s : string) :
  (str_forall space_or_solid s = true -> clean_phone (clean_phone s) = clean_phone s)
  /\ clean_phone (clean_phone ("-" ++ String "009"%char "5"))
     <> clean_phone ("-" ++ String "009"%char "5").
Proof.
  split; [ | vm_compute; discriminate].
  intros H. apply clean_phone_fixed; [ | apply clean_phone_separators].
  assert (H1 : str_forall space_or_solid (clean_phone s) = true).
  { unfold clean_phone, PyStr.strip.
    do 4 apply str_forall_remove. apply str_forall_rstrip, str_forall_lstrip, H. }
  pose proof (clean_phone_separators s) as H2.
  revert H1 H2. generalize (clean_phone s). intros r.
  induction r as [ | c t IH]; simpl; [reflexivity | ].
  rewrite !andb_true_iff. intros [A1 B1] [A2 B2]. split; [ | auto].
  unfold space_or_solid in A1. unfold separator in A2.
  destruct (Ascii.eqb c " "); [discriminate | ]. now rewrite orb_false_r in A1.
Qed.

Lemma clean_phone_idempotent_witness :
  clean_phone (clean_phone " (0300) 123-4567 ") = clean_phone " (0300) 123-4567 ".
Proof.
  apply (proj1 (clean_phone_idempotent " (0300) 123-4567 ")). reflexivity.
Defined.

(** ** Validation, in every mode *)

Lemma strict_is_flexible s : strict_shape s -> flexible_shape s.
Proof.
  intros (pre & body & -> & Hp & Hl & Hd).
  destruct Hp as [-> | [-> | [-> | ->]]].
  - exists "", ("3" ++ body). simpl. rewrite Hl, Hd. repeat split; auto; lia.
  - exists "+", ("923" ++ body). simpl. rewrite Hl, Hd. repeat split; auto; lia.
  - exists "", ("923" ++ body). simpl. rewrite Hl, Hd. repeat split; auto; lia.
  - exists "", ("03" ++ body). simpl. rewrite Hl, Hd. repeat split; auto; lia.
Qed.

Lemma validate_phone_mode_iff (s mode : string) :
  validate_phone s mode = true <->
  exists s0, mode_shape mode s0 /\ (s = s0 \/ s = s0 ++ newline).
Proof.
  unfold mode_shape. destruct (String.eqb_spec mode "strict") as [-> | Hne].
  - apply validate_phone_strict_iff.
  - rewrite <- validate_phone_flexible_iff.
    unfold validate_phone, patterns_get.
    destruct (String.eqb_spec mode "strict"); [contradiction | ].
    now destruct (String.eqb mode "flexible").
Qed.

(** X3.  In every mode [validate_phone] accepts exactly the strings of the
    mode's shape and those strings followed by one newline: the strict
    shape for mode ["strict"], the flexible shape for every other mode. *)
Theorem validate_phone_accepts (s mode : string) :
  validate_phone s mode = true <->
  exists s0, mode_shape mode s0 /\ (s = s0 \/ s = s0 ++ newline).
Proof. apply validate_phone_mode_iff. Qed.

(** X4.  A phone that passes in strict mode passes in every mode: moving
    the setting away from strict never invalidates a number. *)
Theorem validate_phone_strict_is_strictest (s mode : string) :
  validate_phone s "strict" = true -> validate_phone s mode = true.
Proof.
  intros H. apply validate_phone_mode_iff in H as (s0 & Hshape & Hs).
  apply validate_phone_mode_iff. exists s0. split; [ | exact Hs].
  unfold mode_shape in *. simpl in Hshape.
  destruct (String.eqb mode "strict"); [exact Hshape | apply strict_is_flexible, Hshape].
Qed.

Lemma validate_phone_strict_is_strictest_witness :
  validate_phone "923001234567" "flexible" = true.
Proof. apply validate_phone_strict_is_strictest. reflexivity. Defined.

(** ** The matching core of valid numbers *)

Lemma digit_solid c : is_digit c = true -> PyStr.isspace c = false /\ separator c = false.
Proof. destruct c as [[] [] [] [] [] [] [] []]; simpl; intros H; try discriminate; split; reflexivity. Qed.

Lemma digits_solid s :
  all_digits s = true ->
  str_forall (fun c => negb (PyStr.isspace c)) s = true
  /\ str_forall (fun c => negb (separator c)) s = true.
Proof.
  induction s as [ | c t IH]; simpl; [auto | ].
  rewrite andb_true_iff. intros [Hc Ht]. destruct (digit_solid c Hc) as [-> ->].
  simpl. auto.
Qed.

Lemma spells_core s body : spells s body -> normalize_for_comparison s = "3" ++ body.
Proof.
  intros (pre & Hp & -> & Hl & Hd).
  destruct (digits_solid body Hd) as [H1 H2].
  assert (Hclean : clean_phone (pre ++ "3" ++ body) = pre ++ "3" ++ body).
  { apply clean_phone_fixed; destruct Hp as [-> | [-> | [-> | ->]]]; simpl;
      rewrite ?H1, ?H2; reflexivity. }
  unfold normalize_for_comparison. rewrite Hclean.
  destruct Hp as [-> | [-> | [-> | ->]]]; try reflexivity.
  cbn [PyStr.startswith String.prefix String.append].
  destruct (ascii_dec "9" "+"); [discriminate | ].
  destruct (ascii_dec "9" "9"); [ | contradiction].
  destruct (ascii_dec "2" "2"); [ | contradiction].
  unfold PyStr.len. simpl String.length. rewrite Hl. reflexivity.
Qed.

(** X5.  The four strict spellings of a mobile number
    ([3xxxxxxxxx], [03xxxxxxxxx], [923xxxxxxxxx], [+923xxxxxxxxx]) all
    normalize to the ten national digits, so two strict spellings are
    matched exactly when they are spellings of the same number. *)
Theorem normalize_for_comparison_strict (s s' body body' : string) :
  spells s body -> spells s' body' ->
  normalize_for_comparison s = "3" ++ body
  /\ (normalize_for_comparison s = normalize_for_comparison s' <-> body = body').
Proof.
  intros Hs Hs'. rewrite (spells_core s body Hs), (spells_core s' body' Hs').
  split; [reflexivity | ]. split; [intros [= ->]; reflexivity | intros ->; reflexivity].
Qed.

Lemma normalize_for_comparison_strict_witness :
  normalize_for_comparison "+923001234567" = normalize_for_comparison "03001234567".
Proof.
  apply (proj2 (normalize_for_comparison_strict "+923001234567" "03001234567"
                  "001234567" "001234567"
                  ltac:(exists "+92"; repeat split; auto)
                  ltac:(exists "0"; repeat split; auto 6))).
  reflexivity.
Defined.

(** ** Employee lookup and login *)

Local Open Scope nat_scope.

Lemma get_employee_exact (d : db) (p : string) (e : string * info) :
  find (has_phone p) (employees d) = Some e -> get_employee d p = Some (snd e).
Proof. unfold get_employee, has_phone. now intros ->. Qed.

Lemma get_employee_sound (d : db) (p : string) (i : info) :
  get_employee d p = Some i ->
  exists q, In (q, i) (employees d)
            /\ normalize_for_comparison q = normalize_for_comparison p.
Proof.
  unfold get_employee.
  destruct (find (fun e => String.eqb (fst e) p) (employees d)) as [[q j] | ] eqn:Hex.
  - intros [= <-]. apply find_some in Hex as [Hin Hq]. apply String.eqb_eq in Hq.
    simpl in Hq. subst q. exists p. auto.
  - cbv zeta.
    destruct (find (fun e : string * info => String.eqb (normalize_for_comparison (fst e)) (normalize_for_comparison p)) (employees d))
      as [[q j] | ] eqn:Hnorm; [ | discriminate].
    intros [= <-]. apply find_some in Hnorm as [Hin Hq]. cbv beta zeta in Hq.
    apply String.eqb_eq in Hq. exists q. auto.
Qed.

Lemma get_employee_none (d : db) (p : string) :
  get_employee d p = None <->
  forall q i, In (q, i) (employees d) ->
              normalize_for_comparison q <> normalize_for_comparison p.
Proof.
  unfold get_employee. split.
  - destruct (find (fun e => String.eqb (fst e) p) (employees d)); [discriminate | ].
    cbv zeta.
    destruct (find (fun e : string * info => String.eqb (normalize_for_comparison (fst e)) (normalize_for_comparison p)) (employees d))
      eqn:Hnorm; [discriminate | ].
    intros _ q i Hin Heq. apply (find_none _ _ Hnorm) in Hin. cbv beta zeta in Hin.
    cbn [fst] in Hin. rewrite Heq, String.eqb_refl in Hin. discriminate.
  - intros Hno.
    destruct (find (fun e => String.eqb (fst e) p) (employees d)) as [[q j] | ] eqn:Hex.
    { apply find_some in Hex as [Hin Hq]. apply String.eqb_eq in Hq. simpl in Hq. subst q.
      now destruct (Hno p j Hin). }
    cbv zeta.
    destruct (find (fun e : string * info => String.eqb (normalize_for_comparison (fst e)) (normalize_for_comparison p)) (employees d))
      as [[q j] | ] eqn:Hnorm; [ | reflexivity].
    apply find_some in Hnorm as [Hin Hq]. cbv beta zeta in Hq. apply String.eqb_eq in Hq.
    now destruct (Hno q j Hin).
Qed.

(** X6.  [get_employee] answers with the attributes of a stored row whose
    phone has the normalized form of the phone asked for; a row stored
    under exactly that phone wins over rows that only normalize alike; the
    answer is [None] only when no stored phone normalizes alike.  So every
    strict spelling of a number finds the employee stored under any strict
    spelling of it. *)
Theorem get_employee_matches (d : db) (p : string) :
  (forall i, get_employee d p = Some i ->
     exists q, In (q, i) (employees d)
               /\ normalize_for_comparison q = normalize_for_comparison p)
  /\ (forall e, find (has_phone p) (employees d) = Some e -> get_employee d p = Some (snd e))
  /\ (get_employee d p = None <->
      forall q i, In (q, i) (employees d) ->
                  normalize_for_comparison q <> normalize_for_comparison p)
  /\ (forall q i body, In (q, i) (employees d) -> spells q body -> spells p body ->
        exists j, get_employee d p = Some j).
Proof.
  split; [apply get_employee_sound | ]. split; [apply get_employee_exact | ].
  split; [apply get_employee_none | ].
  intros q i body Hin Hq Hp.
  destruct (get_employee d p) as [j | ] eqn:Hget; [eauto | ].
  exfalso. apply (proj1 (get_employee_none d p) Hget q i Hin).
  now rewrite (spells_core q body Hq), (spells_core p body Hp).
Qed.

Lemma get_employee_matches_witness :
  exists j, get_employee one_employee "923001234567" = Some j.
Proof.
  destruct (get_employee_matches one_employee "923001234567") as (_ & _ & _ & H).
  apply (H "03001234567" ayesha "001234567").
  - left. reflexivity.
  - exists "0". repeat split; auto 6.
  - exists "92". repeat split; auto 6.
Defined.

(** X7.  The staff login succeeds exactly when both fields are filled, the
    cleaned phone is valid in the stored mode, the password has the hash of
    the staff password, and the lookup finds attributes that are not empty;
    the session then holds the cleaned phone and those attributes. *)
Theorem show_login_screen_logged_in
    (hash_password : string -> string) (d : db) (phone_input pass_input : string)
    (user_phone : string) (user_info : info) :
  show_login_screen hash_password d phone_input pass_input = LoggedIn user_phone user_info
  <->
  phone_input <> "" /\ pass_input <> ""
  /\ user_phone = clean_phone phone_input
  /\ validate_phone user_phone
       (get_setting_or d "validation_mode" DEFAULT_PHONE_VALIDATION_MODE) = true
  /\ hash_password pass_input = hash_password "ykk123"
  /\ get_employee d user_phone = Some user_info
  /\ user_info <> [].
Proof.
  unfold show_login_screen. split.
  - destruct phone_input as [ | c t]; [discriminate | ].
    destruct pass_input as [ | c' t']; [discriminate | ]. cbn [is_empty orb].
    destruct (validate_phone _ _) eqn:Hv; [ | discriminate]. cbn [negb].
    destruct (String.eqb_spec (hash_password (String c' t')) (hash_password "ykk123"))
      as [Hh | _]; [ | discriminate]. cbn [negb].
    destruct (get_employee d (clean_phone (String c t))) as [[ | a i] | ] eqn:He;
      try discriminate.
    intros [= <- <-]. repeat split; auto; discriminate.
  - intros (Hp & Hq & -> & Hv & Hh & He & Hi).
    destruct phone_input as [ | c t]; [contradiction | ].
    destruct pass_input as [ | c' t']; [contradiction | ]. cbn [is_empty orb].
    rewrite Hv, Hh, String.eqb_refl, He. cbn [negb].
    destruct user_info; [contradiction | reflexivity].
Qed.

Lemma show_login_screen_logged_in_witness :
  get_employee one_employee "+923001234567" = Some ayesha.
Proof.
  apply (proj1 (show_login_screen_logged_in (fun s => s) one_employee
                  "+92 300 1234567" "ykk123" "+923001234567" ayesha)).
  vm_compute. reflexivity.
Defined.

Lemma login_needs_attributes hash_password d phone_input pass_input user_phone user_info :
  show_login_screen hash_password d phone_input pass_input = LoggedIn user_phone user_info ->
  get_employee d user_phone = Some user_info /\ user_info <> [].
Proof.
  unfold show_login_screen.
  destruct (is_empty phone_input || is_empty pass_input); [discriminate | ].
  destruct (negb (validate_phone _ _)); [discriminate | ].
  destruct (negb (String.eqb _ _)); [discriminate | ].
  destruct (get_employee d (clean_phone phone_input)) as [[ | a i] | ] eqn:He; try discriminate.
  intros [= <- <-]. split; [exact He | discriminate].
Qed.

(** X8.  Attributes are required to log in: after the upload of a sheet
    that has the phone column only, no phone and password log anybody in. *)
Theorem phone_only_roster_locks_out
    (hash_password : string -> string) (d : db) (rows : list upload_row)
    (phone_input pass_input : string) (user_phone : string) (user_info : info) :
  (forall r, In r rows -> attrs r = []) ->
  show_login_screen hash_password (snd (replace_roster d rows)) phone_input pass_input
  <> LoggedIn user_phone user_info.
Proof.
  intros Hrows Hlogin.
  apply login_needs_attributes in Hlogin as (He & Hi).
  apply get_employee_sound in He as (q & Hin & _).
  unfold replace_roster, confirm_upload in Hin. simpl in Hin.
  apply fold_insert_In in Hin as [[] | Hin].
  apply filter_In in Hin as [Hin _]. unfold clean_rows in Hin.
  apply in_map_iff in Hin as (r & [= _ Hr] & Hin).
  rewrite (Hrows r Hin) in Hr. congruence.
Qed.

Lemma phone_only_roster_locks_out_witness :
  show_login_screen (fun s => s) (snd (replace_roster one_employee phones_only))
    "03001234567" "ykk123" <> LoggedIn "03001234567" [].
Proof.
  apply phone_only_roster_locks_out.
  intros r [<- | [<- | []]]; reflexivity.
Defined.

(** ** The roster after an upload *)

Lemma fold_insert_length (l : list (string * info)) : forall acc,
  length (fold_left insert_or_ignore l acc) <= length acc + length l.
Proof.
  induction l as [ | a l IH]; intros acc; simpl; [lia | ].
  specialize (IH (insert_or_ignore acc a)). unfold insert_or_ignore in *.
  destruct (existsb _ acc); [lia | ]. rewrite length_app in IH. simpl in IH. lia.
Qed.

(** X9.  After an upload every phone of a valid row is found by
    [get_employee], with the attributes of the first valid row of the sheet
    that has this phone; the roster is never larger than the number
    announced as ready to upload, and is exactly that large when the valid
    phones are distinct. *)
Theorem replace_roster_lookup (d : db) (rows : list upload_row) :
  let mode := get_setting_or d "validation_mode" DEFAULT_PHONE_VALIDATION_MODE in
  let valid := valid_df mode (clean_rows rows) in
  let d' := snd (replace_roster d rows) in
  (forall e, In e valid ->
     exists first, find (has_phone (fst e)) valid = Some first
                   /\ get_employee d' (fst e) = Some (snd first))
  /\ get_total_employees d' <= fst (fst (replace_roster d rows))
  /\ (List.NoDup (map fst valid) ->
      get_total_employees d' = fst (fst (replace_roster d rows))).
Proof.
  intros mode valid d'.
  assert (Hfind : forall p, find (has_phone p) (employees d') = find (has_phone p) valid).
  { intros p. apply (fold_insert_find valid [] p). }
  split; [ | split].
  - intros e He.
    destruct (find (has_phone (fst e)) valid) as [first | ] eqn:Hf.
    + exists first. split; [reflexivity | ].
      apply get_employee_exact. now rewrite Hfind.
    + apply (find_none _ _ Hf) in He. unfold has_phone in He.
      rewrite String.eqb_refl in He. discriminate.
  - unfold get_total_employees. subst d'. unfold replace_roster, confirm_upload. simpl.
    apply (fold_insert_length _ []).
  - intros Hnd.
    change (length (fold_left insert_or_ignore valid []) = length valid).
    rewrite (fold_insert_distinct valid [] Hnd); [reflexivity | intros e _ []].
Qed.

Lemma replace_roster_lookup_witness :
  get_total_employees (snd (replace_roster one_employee sample_upload)) = 3.
Proof.
  destruct (replace_roster_lookup one_employee sample_upload) as (_ & _ & H).
  apply H. vm_compute. repeat constructor; simpl; intuition discriminate.
Defined.

(** ** The table of responses *)

Lemma attempt_results (d : db) (a : attempt) :
  poll_results (attempt_db d a) = poll_results d
  \/ (has_already_voted d (a_phone a) = false
      /\ exists r ts,
           poll_results (attempt_db d a)
           = (poll_results d
              ++ [{| v_phone := a_phone a; v_response := r; v_timestamp := ts |}])%list).
Proof.
  unfold attempt_db, show_user_interface.
  destruct (get_poll_state _ _ _); simpl; auto.
  destruct (has_already_voted d (a_phone a)) eqn:Hv; simpl; auto.
  destruct (a_submit a) as [r | ]; simpl; auto.
  unfold save_vote. fold (has_already_voted d (a_phone a)). rewrite Hv. simpl.
  right. split; [reflexivity | eauto].
Qed.

(** X10.  The vote screen only ever appends to the responses: whatever is
    stored stays, in place and unchanged, through any uses of the screen;
    and when no two stored responses share a phone, none do afterwards. *)
Theorem poll_results_append_only (d : db) (l : list attempt) :
  (exists added, poll_results (attempts_db d l) = (poll_results d ++ added)%list)
  /\ (List.NoDup (map v_phone (poll_results d)) ->
      List.NoDup (map v_phone (poll_results (attempts_db d l))))
  /\ employees (attempts_db d l) = employees d
  /\ settings (attempts_db d l) = settings d.
Proof.
  revert d. induction l as [ | a l IH]; intros d; simpl.
  - split; [exists []; now rewrite app_nil_r | auto].
  - destruct (IH (attempt_db d a)) as ((added & Happ) & Hnd & He & Hs).
    assert (Hrest : employees (attempt_db d a) = employees d
                    /\ settings (attempt_db d a) = settings d).
    { unfold attempt_db, show_user_interface.
      destruct (get_poll_state _ _ _); simpl; auto.
      destruct (has_already_voted d (a_phone a)); simpl; auto.
      destruct (a_submit a); simpl; auto.
      unfold save_vote. destruct (existsb _ _); simpl; auto. }
    destruct Hrest as [He' Hs'].
    destruct (attempt_results d a) as [Hsame | (Hv & r & ts & Hadd)].
    + rewrite Hsame in *. split; [eauto | ]. split; [exact Hnd | ]. split; congruence.
    + split; [ | split; [ | split; congruence]].
      * exists ({| v_phone := a_phone a; v_response := r; v_timestamp := ts |} :: added).
        rewrite Happ, Hadd, <- app_assoc. reflexivity.
      * intros Hd. apply Hnd. rewrite Hadd, map_app. simpl.
        apply List.NoDup_app; [exact Hd | repeat constructor; intros [] | ].
        intros q Hq [<- | []]. apply in_map_iff in Hq as (v & Hvq & Hin).
        unfold has_already_voted in Hv.
        assert (Hex : existsb (fun v => String.eqb (v_phone v) (a_phone a)) (poll_results d) = true).
        { apply existsb_exists. exists v. split; [exact Hin | ]. rewrite Hvq. apply String.eqb_refl. }
        congruence.
Qed.

Lemma poll_results_append_only_witness :
  List.NoDup (map v_phone (poll_results
    (attempts_db one_employee
       [{| a_phone := "03001234567"; a_start := window_start; a_end := window_end;
           a_now := at_time 2026 1 15 12 0; a_submit := Some "I am okay and safe." |};
        {| a_phone := "03001234567"; a_start := window_start; a_end := window_end;
           a_now := at_time 2026 1 15 12 1; a_submit := Some "I am stuck and help is needed." |}]))).
Proof.
  apply poll_results_append_only. constructor.
Defined.

(** ** Settings: saving, comparing, opening the tab *)

Section SettingsMore.
Context `{Pytz}.

(** What a successful save leaves in the table. *)
Lemma save_settings_saved (d d' : db) (st : draft) :
  save_settings_to_db d st = (SettingsSaved, d') ->
  exists s_time e_time,
    tz_known (settings_timezone st) = true
    /\ draft_times st = Some (s_time, e_time)
    /\ d' = set_setting (set_setting (set_setting (set_setting (set_setting (set_setting d
              "poll_start"
              (strftime (localize (settings_timezone st)
                           (combine (settings_start_date st) s_time))))
              "poll_end"
              (strftime (localize (settings_timezone st)
                           (combine (settings_end_date st) e_time))))
              "validation_mode" (settings_validation st))
              "timezone" (settings_timezone st))
              "time_format" (settings_time_format st))
              "col_phone" (PyStr.strip (settings_col_phone st)).
Proof.
  unfold save_settings_to_db.
  destruct (tz_known (settings_timezone st)); [ | discriminate]. cbn [negb].
  destruct (draft_times st) as [[s_time e_time] | ]; [ | discriminate].
  destruct (_ <=? _)%Z; [discriminate | ].
  intros [= <-]. exists s_time, e_time. auto.
Qed.

Lemma check_settings_changed_unfold (d : db) (st : draft) (s_time e_time : time) :
  tz_known (settings_timezone st) = true ->
  draft_times st = Some (s_time, e_time) ->
  check_settings_changed d (Some st) =
    (negb (String.eqb (settings_timezone st) (get_setting_or d "timezone" DEFAULT_TIMEZONE))
     || negb (String.eqb (settings_time_format st)
                (get_setting_or d "time_format" DEFAULT_TIME_FORMAT))
     || negb (String.eqb (settings_validation st)
                (get_setting_or d "validation_mode" DEFAULT_PHONE_VALIDATION_MODE))
     || negb (String.eqb (PyStr.strip (settings_col_phone st))
                (get_setting_or d "col_phone" DEFAULT_COL_PHONE))
     || differs (strftime (localize (settings_timezone st)
                             (combine (settings_start_date st) s_time)))
          (get_setting d "poll_start")
     || differs (strftime (localize (settings_timezone st)
                             (combine (settings_end_date st) e_time)))
          (get_setting d "poll_end")).
Proof.
  intros Htz Htimes. unfold check_settings_changed. rewrite Htz, Htimes. cbn [negb].
  destruct (negb _ || _ || _ || _); [reflexivity | ]. simpl. reflexivity.
Qed.

End SettingsMore.

Lemma six_writes_lookup v1 v2 v3 v4 v5 v6 (m : gmap string string) :
  six_writes v1 v2 v3 v4 v5 v6 m !! "poll_start" = Some v1
  /\ six_writes v1 v2 v3 v4 v5 v6 m !! "poll_end" = Some v2
  /\ six_writes v1 v2 v3 v4 v5 v6 m !! "validation_mode" = Some v3
  /\ six_writes v1 v2 v3 v4 v5 v6 m !! "timezone" = Some v4
  /\ six_writes v1 v2 v3 v4 v5 v6 m !! "time_format" = Some v5
  /\ six_writes v1 v2 v3 v4 v5 v6 m !! "col_phone" = Some v6.
Proof.
  unfold six_writes.
  repeat split;
    repeat (rewrite lookup_insert_ne by discriminate); apply lookup_insert_eq.
Qed.

Lemma six_writes_twice v1 v2 v3 v4 v5 v6 (m : gmap string string) :
  six_writes v1 v2 v3 v4 v5 v6 (six_writes v1 v2 v3 v4 v5 v6 m)
  = six_writes v1 v2 v3 v4 v5 v6 m.
Proof.
  destruct (six_writes_lookup v1 v2 v3 v4 v5 v6 m) as (L1 & L2 & L3 & L4 & L5 & L6).
  generalize dependent (six_writes v1 v2 v3 v4 v5 v6 m). intros m' L1 L2 L3 L4 L5 L6.
  unfold six_writes.
  rewrite (insert_id m' _ _ L1), (insert_id m' _ _ L2), (insert_id m' _ _ L3),
    (insert_id m' _ _ L4), (insert_id m' _ _ L5), (insert_id m' _ _ L6).
  reflexivity.
Qed.

(** X11.  After a successful save the same draft is reported as having no
    unsaved changes, and saving it again succeeds and leaves the database
    exactly as it is. *)
Theorem save_then_no_unsaved_changes `{Pytz} (d d' : db) (st : draft) :
  save_settings_to_db d st = (SettingsSaved, d') ->
  check_settings_changed d' (Some st) = false
  /\ save_settings_to_db d' st = (SettingsSaved, d').
Proof.
  intros Hsave.
  assert (Hgt : exists s_time e_time, draft_times st = Some (s_time, e_time)
            /\ ((tz_instant (settings_timezone st) (combine (settings_end_date st) e_time)
                 <=? tz_instant (settings_timezone st) (combine (settings_start_date st) s_time))%Z
                = false)).
  { unfold save_settings_to_db in Hsave.
    destruct (tz_known (settings_timezone st)); [ | discriminate]. cbn [negb] in Hsave.
    destruct (draft_times st) as [[s_time e_time] | ]; [ | discriminate].
    exists s_time, e_time. split; [reflexivity | ].
    unfold localize in Hsave. cbn [instant] in Hsave.
    destruct (_ <=? _)%Z; [discriminate | reflexivity]. }
  destruct Hgt as (s0 & e0 & Ht0 & Hcmp).
  apply save_settings_saved in Hsave as (s_time & e_time & Htz & Htimes & ->).
  rewrite Htimes in Ht0. injection Ht0 as <- <-.
  set (v1 := strftime (localize (settings_timezone st)
                         (combine (settings_start_date st) s_time))).
  set (v2 := strftime (localize (settings_timezone st)
                         (combine (settings_end_date st) e_time))).
  destruct (six_writes_lookup v1 v2 (settings_validation st) (settings_timezone st)
              (settings_time_format st) (PyStr.strip (settings_col_phone st)) (settings d))
    as (L1 & L2 & L3 & L4 & L5 & L6).
  split.
  - rewrite (check_settings_changed_unfold _ st s_time e_time Htz Htimes).
    fold v1. fold v2.
    unfold get_setting_or, get_setting, set_setting, set_settings, differs. cbn [settings].
    fold (six_writes v1 v2 (settings_validation st) (settings_timezone st)
            (settings_time_format st) (PyStr.strip (settings_col_phone st)) (settings d)).
    rewrite L1, L2, L3, L4, L5, L6, !String.eqb_refl. reflexivity.
  - unfold save_settings_to_db. rewrite Htz, Htimes. cbn [negb].
    unfold localize at 1 2. cbn [instant]. rewrite Hcmp. fold v1. fold v2.
    f_equal. unfold set_setting, set_settings. cbn [settings poll_results employees].
    f_equal.
    apply (six_writes_twice v1 v2 (settings_validation st) (settings_timezone st)
             (settings_time_format st) (PyStr.strip (settings_col_phone st)) (settings d)).
Qed.

Lemma save_then_no_unsaved_changes_witness :
  @check_settings_changed two_zones saved_defaults (Some default_draft) = false.
Proof.
  apply (@save_then_no_unsaved_changes two_zones one_employee saved_defaults default_draft).
  vm_compute. reflexivity.
Defined.

(** X12.  When the start or the end of the poll is not stored (a new
    database, or after "Reset"), every draft that composes is reported as
    changed, whatever it holds: the stored start and end are read without
    their defaults. *)
Theorem check_settings_changed_nothing_stored `{Pytz}
    (d : db) (st : draft) (s_time e_time : time) :
  tz_known (settings_timezone st) = true ->
  draft_times st = Some (s_time, e_time) ->
  (get_setting d "poll_start" = None \/ get_setting d "poll_end" = None ->
   check_settings_changed d (Some st) = true)
  /\ (forall ss, check_settings_changed (fst (reset_settings d ss)) (Some st) = true).
Proof.
  intros Htz Htimes.
  assert (Hmissing : forall d0,
             get_setting d0 "poll_start" = None \/ get_setting d0 "poll_end" = None ->
             check_settings_changed d0 (Some st) = true).
  { intros d0 Hnone. rewrite (check_settings_changed_unfold d0 st s_time e_time Htz Htimes).
    destruct Hnone as [-> | ->]; cbn [differs]; rewrite ?orb_true_r; reflexivity. }
  split; [apply Hmissing | ].
  intros ss. apply Hmissing. left. reflexivity.
Qed.

Lemma check_settings_changed_nothing_stored_witness :
  @check_settings_changed two_zones one_employee (Some default_draft) = true.
Proof.
  apply (@check_settings_changed_nothing_stored two_zones one_employee default_draft
           (dt_time DEFAULT_POLL_START) (dt_time DEFAULT_POLL_END) eq_refl eq_refl).
  left. reflexivity.
Defined.

Lemma draft_times_init_settings (cfg : poll_config) :
  whole_minute (dt_time (naive (POLL_START cfg))) ->
  whole_minute (dt_time (naive (POLL_END cfg))) ->
  draft_times (init_settings cfg)
  = Some (dt_time (naive (POLL_START cfg)), dt_time (naive (POLL_END cfg))).
Proof.
  intros Hs He.
  pose proof (mk_time_24_12_24 _ Hs) as Hs'. pose proof (mk_time_24_12_24 _ He) as He'.
  unfold init_settings, draft_times.
  destruct (convert_24hr_to_12hr (hour (dt_time (naive (POLL_START cfg)))) _) as [[h12 m] p].
  destruct (convert_24hr_to_12hr (hour (dt_time (naive (POLL_END cfg)))) _) as [[h12' m'] p'].
  simpl.
  destruct (convert_12hr_to_24hr h12 m p) as [h k].
  destruct (convert_12hr_to_24hr h12' m' p') as [h' k'].
  rewrite Hs', He'. reflexivity.
Qed.

(** X13.  On entering the Settings tab a draft is made from the
    configuration.  When the configuration is the stored one, with times of
    whole minutes and a known zone, that draft is reported as having no
    unsaved changes, in 12-hour input as it is created and after a switch
    to 24-hour input; a draft that exists is never replaced. *)
Theorem ensure_settings_no_unsaved_changes `{Pytz}
    (d : db) (cfg : poll_config) (ss : session) :
  active_admin_tab ss = Some 2%Z ->
  tz_known (TZ cfg) = true ->
  whole_minute (dt_time (naive (POLL_START cfg))) ->
  whole_minute (dt_time (naive (POLL_END cfg))) ->
  get_setting d "poll_start" = Some (strftime (POLL_START cfg)) ->
  get_setting d "poll_end" = Some (strftime (POLL_END cfg)) ->
  get_setting_or d "timezone" DEFAULT_TIMEZONE = TZ cfg ->
  get_setting_or d "time_format" DEFAULT_TIME_FORMAT = TIME_FORMAT cfg ->
  get_setting_or d "validation_mode" DEFAULT_PHONE_VALIDATION_MODE = PHONE_VALIDATION_MODE cfg ->
  get_setting_or d "col_phone" DEFAULT_COL_PHONE = COL_PHONE cfg ->
  PyStr.strip (COL_PHONE cfg) = COL_PHONE cfg ->
  (settings_keys ss = None ->
   settings_keys (ensure_settings cfg ss) = Some (init_settings cfg)
   /\ check_settings_changed d (settings_keys (ensure_settings cfg ss)) = false
   /\ check_settings_changed d (Some (set_time_input "24" (init_settings cfg))) = false)
  /\ (forall st, settings_keys ss = Some st -> ensure_settings cfg ss = ss).
Proof.
  intros Htab Htz Hs He Hstart Hend Hz Hf Hv Hc Hstrip. split.
  - intros Hnone.
    assert (Hens : settings_keys (ensure_settings cfg ss) = Some (init_settings cfg)).
    { unfold ensure_settings. rewrite Hnone, Htab. reflexivity. }
    assert (Hfields : settings_timezone (init_settings cfg) = TZ cfg
                      /\ settings_time_format (init_settings cfg) = TIME_FORMAT cfg
                      /\ settings_validation (init_settings cfg) = PHONE_VALIDATION_MODE cfg
                      /\ settings_col_phone (init_settings cfg) = COL_PHONE cfg
                      /\ settings_start_date (init_settings cfg) = dt_date (naive (POLL_START cfg))
                      /\ settings_end_date (init_settings cfg) = dt_date (naive (POLL_END cfg))
                      /\ settings_start_time_24 (init_settings cfg) = dt_time (naive (POLL_START cfg))
                      /\ settings_end_time_24 (init_settings cfg) = dt_time (naive (POLL_END cfg))).
    { unfold init_settings.
      destruct (convert_24hr_to_12hr (hour (dt_time (naive (POLL_START cfg)))) _) as [[? ?] ?].
      destruct (convert_24hr_to_12hr (hour (dt_time (naive (POLL_END cfg)))) _) as [[? ?] ?].
      repeat split. }
    destruct Hfields as (F1 & F2 & F3 & F4 & F5 & F6 & F7 & F8).
    assert (Hcheck : forall st, settings_timezone st = TZ cfg ->
               settings_time_format st = TIME_FORMAT cfg ->
               settings_validation st = PHONE_VALIDATION_MODE cfg ->
               settings_col_phone st = COL_PHONE cfg ->
               settings_start_date st = dt_date (naive (POLL_START cfg)) ->
               settings_end_date st = dt_date (naive (POLL_END cfg)) ->
               draft_times st
               = Some (dt_time (naive (POLL_START cfg)), dt_time (naive (POLL_END cfg))) ->
               check_settings_changed d (Some st) = false).
    { intros st E1 E2 E3 E4 E5 E6 Hdt.
      rewrite (check_settings_changed_unfold d st _ _ ltac:(rewrite E1; exact Htz) Hdt).
      rewrite E1, E2, E3, E4, E5, E6, Hz, Hf, Hv, Hc, Hstrip, Hstart, Hend, !String.eqb_refl.
      cbn [negb orb differs].
      assert (Hfmt : forall x : datetime,
                 strftime (localize (TZ cfg) (combine (dt_date (naive x)) (dt_time (naive x))))
                 = strftime x).
      { intros [[dd tt] ii]. reflexivity. }
      rewrite !Hfmt, !String.eqb_refl. reflexivity. }
    split; [exact Hens | ]. split.
    + rewrite Hens. apply Hcheck; auto. apply draft_times_init_settings; assumption.
    + apply Hcheck; auto. unfold draft_times. cbn [settings_time_input set_time_input].
      cbn [String.eqb Ascii.eqb Bool.eqb]. cbn [settings_start_time_24 settings_end_time_24 set_time_input].
      now rewrite F7, F8.
  - intros st Hst. unfold ensure_settings. now rewrite Hst.
Qed.

Lemma ensure_settings_no_unsaved_changes_witness :
  @check_settings_changed two_zones saved_defaults
    (settings_keys (ensure_settings default_config entering_settings)) = false.
Proof.
  destruct (@ensure_settings_no_unsaved_changes two_zones saved_defaults default_config
              entering_settings eq_refl eq_refl
              ltac:(unfold whole_minute; simpl; lia) ltac:(unfold whole_minute; simpl; lia)
              ltac:(vm_compute; reflexivity) ltac:(vm_compute; reflexivity)
              ltac:(vm_compute; reflexivity) ltac:(vm_compute; reflexivity)
              ltac:(vm_compute; reflexivity) ltac:(vm_compute; reflexivity)
              eq_refl) as (Hopen & _).
  destruct (Hopen eq_refl) as (_ & Hcheck & _). exact Hcheck.
Defined.

(** ** Leaving the Settings tab *)





(** ** The banner and the display texts *)

Local Open Scope Z_scope.

(** X16.  While the poll is open the banner shows whole days, hours below
    24 and minutes below 60 that add up to the remaining time rounded down
    to the minute; the days are shown exactly when a full day or more
    remains.  Outside the window there is no banner. *)
Theorem timer_str_breakdown (POLL_START POLL_END now : datetime) :
  let remaining := instant POLL_END - instant now in
  (timer_shown (instant now) (instant POLL_START) (instant POLL_END) = true ->
   exists days hours minutes,
     timer_parts (datetime_sub POLL_END now) = (days, hours, minutes)
     /\ 0 <= days /\ 0 <= hours <= 23 /\ 0 <= minutes <= 59
     /\ days * 86400 + hours * 3600 + minutes * 60 <= remaining
        < days * 86400 + hours * 3600 + minutes * 60 + 60
     /\ (86400 <= remaining ->
         timer_str POLL_START POLL_END now
         = Some (str_int days ++ "d " ++ str_int hours ++ "h " ++ str_int minutes ++ "m")%string)
     /\ (remaining < 86400 ->
         days = 0 /\
         timer_str POLL_START POLL_END now
         = Some (str_int hours ++ "h " ++ str_int minutes ++ "m")%string))
  /\ (timer_shown (instant now) (instant POLL_START) (instant POLL_END) = false ->
      timer_str POLL_START POLL_END now = None).
Proof.
  intros remaining. split.
  - intros Hshown. unfold timer_str. rewrite Hshown.
    unfold timer_shown in Hshown. apply andb_true_iff in Hshown as [_ Hle].
    apply Z.leb_le in Hle.
    unfold timer_parts, datetime_sub. cbn [td_days td_seconds]. fold remaining.
    assert (Hrem : 0 <= remaining) by (subst remaining; lia).
    exists (remaining / 86400), (remaining mod 86400 / 3600),
      (remaining mod 86400 mod 3600 / 60).
    split; [reflexivity | ].
    pose proof (Z.div_mod remaining 86400 ltac:(lia)) as E1.
    pose proof (Z.mod_pos_bound remaining 86400 ltac:(lia)) as B1.
    pose proof (Z.div_mod (remaining mod 86400) 3600 ltac:(lia)) as E2.
    pose proof (Z.mod_pos_bound (remaining mod 86400) 3600 ltac:(lia)) as B2.
    pose proof (Z.div_mod (remaining mod 86400 mod 3600) 60 ltac:(lia)) as E3.
    pose proof (Z.mod_pos_bound (remaining mod 86400 mod 3600) 60 ltac:(lia)) as B3.
    set (dd := remaining / 86400) in *. set (r1 := remaining mod 86400) in *.
    set (hh := r1 / 3600) in *. set (r2 := r1 mod 3600) in *.
    set (mm := r2 / 60) in *. set (r3 := r2 mod 60) in *.
    assert (Hdd : 0 <= dd) by (subst dd; apply Z.div_pos; lia).
    repeat split; try lia.
    + intros Hday. assert (Hpos : (dd >? 0) = true) by (apply Z.gtb_lt; lia).
      now rewrite Hpos.
    + assert (Hz : (dd >? 0) = false) by (destruct (Z.gtb_spec dd 0); [lia | reflexivity]).
      now rewrite Hz.
  - intros Hhidden. unfold timer_str. now rewrite Hhidden.
Qed.

Lemma timer_str_breakdown_witness :
  timer_str window_start window_end (at_time 2026 1 30 17 30) = Some "1d 0h 30m"%string.
Proof.
  destruct (timer_str_breakdown window_start window_end (at_time 2026 1 30 17 30))
    as (Hshown & _).
  destruct (Hshown eq_refl) as (days & hours & minutes & Hparts & _ & _ & _ & _ & Hday & _).
  injection Hparts as <- <- <-. rewrite Hday; [reflexivity | vm_compute; discriminate].
Defined.

Lemma convert_24hr_to_12hr_clock (h m : Z) :
  0 <= h <= 23 -> convert_24hr_to_12hr h m = (hour_I h, m, am_pm h).
Proof.
  intros Hh. unfold convert_24hr_to_12hr, hour_I, am_pm.
  destruct (Z.eqb_spec h 0) as [-> | H0]; [reflexivity | ].
  destruct (Z.ltb_spec h 12) as [Hlt | Hge].
  - rewrite (Z.mod_small h 12) by lia.
    destruct (Z.eqb_spec h 0); [contradiction | reflexivity].
  - destruct (Z.eqb_spec h 12) as [-> | H12]; [reflexivity | ].
    assert (Hm : h mod 12 = h - 12).
    { symmetry. apply (Z.mod_unique h 12 1 (h - 12)); lia. }
    rewrite Hm. destruct (Z.eqb_spec (h - 12) 0); [lia | reflexivity].
Qed.

(** X17.  The 12-hour display of a time shows the hour and the AM/PM that
    [convert_24hr_to_12hr] gives for it, so the display agrees with the
    12-hour fields of the settings form; every format other than ["12"]
    gives the 24-hour display. *)
Theorem format_time_display_clock (dt : datetime) (time_format : string) :
  let d := dt_date (naive dt) in
  let t := dt_time (naive dt) in
  (0 <= hour t <= 23 ->
   forall h12 m12 p, convert_24hr_to_12hr (hour t) (minute t) = (h12, m12, p) ->
     format_time_display dt "12"
     = (month_name (month d) ++ " " ++ pad 2 (day d) ++ ", " ++ fmt_year (year d) ++ " at "
        ++ pad 2 h12 ++ ":" ++ pad 2 m12 ++ " " ++ p)%string)
  /\ (time_format <> "12"%string ->
      format_time_display dt time_format
      = (month_name (month d) ++ " " ++ pad 2 (day d) ++ ", " ++ fmt_year (year d) ++ " at "
         ++ pad 2 (hour t) ++ ":" ++ pad 2 (minute t))%string).
Proof.
  intros d t. split.
  - intros Hh h12 m12 p Hc. rewrite (convert_24hr_to_12hr_clock _ _ Hh) in Hc.
    injection Hc as <- <- <-. reflexivity.
  - intros Hne. unfold format_time_display.
    destruct (String.eqb_spec time_format "12"); [contradiction | reflexivity].
Qed.

Lemma format_time_display_clock_witness :
  format_time_display window_end "12" = "January 31, 2026 at 06:00 PM"%string
  /\ format_time_display window_end "24" = "January 31, 2026 at 18:00"%string.
Proof.
  destruct (format_time_display_clock window_end "24") as (H12 & H24). split.
  - rewrite (H12 ltac:(simpl; lia) 6 0 "PM"%string eq_refl). reflexivity.
  - rewrite (H24 ltac:(discriminate)). reflexivity.
Defined.

Local Open Scope nat_scope.

Lemma join_nonempty (sep p : string) (rest : list string) :
  p <> ""%string -> join sep (p :: rest) <> ""%string.
Proof.
  intros Hp. destruct p as [ | c t]; [contradiction | ].
  destruct rest; simpl; discriminate.
Qed.

Lemma usable_nonempty (v : option string) : usable v = true -> str_value v <> ""%string.
Proof.
  destruct v as [[ | c t] | ]; simpl; intros Hu; congruence.
Qed.

Lemma dict_get_usable (user_info : info) (key : string) (alt : option string) (v : string) :
  dict_get user_info key (Some ""%string) = Some v -> usable (Some v) = true ->
  dict_get user_info key alt = Some v.
Proof.
  unfold dict_get. destruct (find _ user_info); [auto | ].
  intros [= <-]. discriminate.
Qed.

(** X18.  The display name is never empty.  With usable values under
    ["Name"] and ["Department"] it is the two joined by [" | "]; without
    any usable value (none at all, nulls, empty strings or NaN in any
    case) it is ["User"]. *)
Theorem get_display_name_shape (user_info : info) :
  get_display_name user_info <> ""%string
  /\ (forall name dept,
        dict_get user_info "Name" (Some ""%string) = Some name -> usable (Some name) = true ->
        dict_get user_info "Department" (Some ""%string) = Some dept ->
        usable (Some dept) = true ->
        get_display_name user_info = (name ++ " | " ++ dept)%string)
  /\ ((forall kv, In kv user_info -> usable (snd kv) = false) ->
      get_display_name user_info = "User"%string).
Proof.
  split; [ | split].
  - unfold get_display_name.
    set (name := dict_get user_info "Name" _). set (dept := dict_get user_info "Department" _).
    destruct (usable name) eqn:Hn.
    + cbn [app]. apply join_nonempty, usable_nonempty, Hn.
    + destruct (usable dept) eqn:Hd.
      * cbn [app]. apply join_nonempty, usable_nonempty, Hd.
      * cbn [app].
        destruct (List.filter usable (map snd user_info)) as [ | v l] eqn:Hf;
          [discriminate | ].
        assert (Hv : usable v = true).
        { assert (Hin : In v (List.filter usable (map snd user_info)))
            by (rewrite Hf; left; reflexivity).
          apply filter_In in Hin. apply Hin. }
        destruct l; cbn [map firstn]; apply join_nonempty, usable_nonempty, Hv.
  - intros name dept Hname Hn Hdept Hd. unfold get_display_name.
    rewrite (dict_get_usable _ _ _ _ Hname Hn), (dict_get_usable _ _ _ _ Hdept Hd), Hn, Hd.
    reflexivity.
  - intros Hall. unfold get_display_name.
    assert (Hget : forall key alt, usable alt = false ->
               usable (dict_get user_info key alt) = false).
    { intros key alt Halt. unfold dict_get.
      destruct (find _ user_info) as [kv | ] eqn:Hf; [ | exact Halt].
      apply find_some in Hf as [Hin _]. apply Hall, Hin. }
    rewrite !Hget by (try apply Hget; try apply Hget; reflexivity).
    cbn [app].
    assert (Hf : List.filter usable (map snd user_info) = []).
    { clear Hget. induction user_info as [ | kv l IH]; [reflexivity | ].
      simpl. rewrite (Hall kv (or_introl eq_refl)). apply IH.
      intros kv' Hin. apply Hall. right. exact Hin. }
    rewrite Hf. reflexivity.
Qed.

Lemma get_display_name_shape_witness :
  get_display_name ayesha = "Ayesha | QA"%string
  /\ get_display_name [("Name"%string, None); ("Department"%string, Some "NaN"%string)]
     = "User"%string.
Proof.
  split.
  - apply (proj1 (proj2 (get_display_name_shape ayesha)) "Ayesha"%string "QA"%string);
      reflexivity.
  - apply (proj2 (proj2 (get_display_name_shape _))).
    intros kv [<- | [<- | []]]; reflexivity.
Defined.

(** ** Switching the time input *)

Local Open Scope Z_scope.

Lemma convert_12_24_12 (h m : Z) (p : string) :
  1 <= h <= 12 -> 0 <= m <= 59 -> (p = "AM" \/ p = "PM")%string ->
  exists h24, convert_12hr_to_24hr h m p = (h24, m)
              /\ mk_time h24 m = Some {| hour := h24; minute := m; second := 0 |}
              /\ convert_24hr_to_12hr h24 m = (h, m, p).
Proof.
  intros Hh Hm Hp. unfold convert_12hr_to_24hr.
  assert (Hmk : forall h24, 0 <= h24 <= 23 ->
             mk_time h24 m = Some {| hour := h24; minute := m; second := 0 |}).
  { intros h24 H24. unfold mk_time.
    replace ((0 <=? h24) && (h24 <=? 23) && (0 <=? m) && (m <=? 59)) with true; [reflexivity | ].
    symmetry. repeat (apply andb_true_intro; split); apply Z.leb_le; lia. }
  destruct Hp as [-> | ->]; simpl; destruct (Z.eqb_spec h 12) as [-> | Hne]; simpl.
  - exists 0. repeat split; auto. apply Hmk; lia.
  - exists h. repeat split; [apply Hmk; lia | ]. unfold convert_24hr_to_12hr.
    destruct (Z.eqb_spec h 0); [lia | ]. destruct (Z.ltb_spec h 12); [reflexivity | lia].
  - exists 12. repeat split; auto. apply Hmk; lia.
  - exists (h + 12). repeat split; [apply Hmk; lia | ]. unfold convert_24hr_to_12hr.
    destruct (Z.eqb_spec (h + 12) 0); [lia | ].
    destruct (Z.ltb_spec (h + 12) 12); [lia | ].
    destruct (Z.eqb_spec (h + 12) 12); [lia | ].
    repeat f_equal. lia.
Qed.

(** X19.  Switching the time input converts without loss.  From 12-hour
    fields in their ranges, the switch to 24-hour input succeeds and the
    switch back restores the 12-hour fields: nothing but the input mode
    changes.  From 24-hour times of whole minutes, the switch to 12-hour
    input and back restores the 24-hour times. *)
Theorem sync_time_input_lossless (st : draft) :
  (twelve_hour_fields st ->
   exists st24,
     sync_time_input (set_time_input "24" st) = Some st24
     /\ sync_time_input (set_time_input "12" st24) = Some (set_time_input "12" st24)
     /\ settings_start_hour st24 = settings_start_hour st
     /\ settings_start_min st24 = settings_start_min st
     /\ settings_start_period st24 = settings_start_period st
     /\ settings_end_hour st24 = settings_end_hour st
     /\ settings_end_min st24 = settings_end_min st
     /\ settings_end_period st24 = settings_end_period st)
  /\ (whole_minute (settings_start_time_24 st) ->
      whole_minute (settings_end_time_24 st) ->
      exists st12,
        sync_time_input (set_time_input "12" st) = Some st12
        /\ sync_time_input (set_time_input "24" st12) = Some (set_time_input "24" st12)
        /\ settings_start_time_24 st12 = settings_start_time_24 st
        /\ settings_end_time_24 st12 = settings_end_time_24 st).
Proof.
  split.
  - intros ((Hsh & Hsm & Heh & Hem) & Hsp & Hep).
    destruct (convert_12_24_12 _ _ _ Hsh Hsm Hsp) as (hs & Cs & Ms & Bs).
    destruct (convert_12_24_12 _ _ _ Heh Hem Hep) as (he & Ce & Me & Be).
    unfold sync_time_input.
    cbn [settings_time_input set_time_input String.eqb Ascii.eqb Bool.eqb
         settings_start_hour settings_start_min settings_start_period
         settings_end_hour settings_end_min settings_end_period].
    rewrite Cs, Ms, Ce, Me.
    eexists. split; [reflexivity | ]. split; [ | repeat split].
    cbn [settings_time_input set_time_input set_times_24 String.eqb Ascii.eqb Bool.eqb
         settings_start_time_24 settings_end_time_24 hour minute].
    rewrite Bs, Be. destruct st; reflexivity.
  - intros Hs He.
    pose proof (mk_time_24_12_24 _ Hs) as Hs'. pose proof (mk_time_24_12_24 _ He) as He'.
    unfold sync_time_input.
    cbn [settings_time_input set_time_input String.eqb Ascii.eqb Bool.eqb
         settings_start_time_24 settings_end_time_24].
    eexists. split; [reflexivity | ]. split; [ | split; reflexivity].
    cbn [settings_time_input set_time_input set_times_12 String.eqb Ascii.eqb Bool.eqb
         settings_start_hour settings_start_min settings_start_period
         settings_end_hour settings_end_min settings_end_period].
    destruct (convert_24hr_to_12hr (hour (settings_start_time_24 st)) _) as [[h12 m] p].
    destruct (convert_24hr_to_12hr (hour (settings_end_time_24 st)) _) as [[h12' m'] p'].
    cbn [fst snd].
    destruct (convert_12hr_to_24hr h12 m p) as [h k].
    destruct (convert_12hr_to_24hr h12' m' p') as [h' k'].
    rewrite Hs', He'. destruct st; reflexivity.
Qed.

Lemma sync_time_input_lossless_witness :
  exists st24,
    sync_time_input (set_time_input "24" default_draft) = Some st24
    /\ sync_time_input (set_time_input "12" st24) = Some (set_time_input "12" st24).
Proof.
  destruct (proj1 (sync_time_input_lossless default_draft)) as (st24 & H1 & H2 & _).
  - unfold twelve_hour_fields. simpl. repeat split; auto; lia.
  - exists st24. split; [exact H1 | exact H2].
Defined.

(** ** The stored timestamp format *)

Lemma length_append (a b : string) :
  String.length (a ++ b) = (String.length a + String.length b)%nat.
Proof. induction a as [ | c a IH]; simpl; [reflexivity | now rewrite IH]. Qed.

Lemma append_inv (a a' b b' : string) :
  String.length a = String.length a' -> (a ++ b = a' ++ b')%string -> a = a' /\ b = b'.
Proof.
  revert a'. induction a as [ | c a IH]; intros [ | c' a'] Hl Heq; try discriminate.
  - auto.
  - simpl in Heq. injection Heq as -> Heq. injection Hl as Hl.
    destruct (IH a' Hl Heq) as [-> ->]. auto.
Qed.

Lemma pad_length (w : nat) (n : Z) : String.length (pad w n) = w.
Proof.
  revert n. induction w as [ | w IH]; intros n; simpl; [reflexivity | ].
  rewrite length_append, IH. simpl. lia.
Qed.

Lemma digit_char_inj (a b : Z) :
  0 <= a < 10 -> 0 <= b < 10 -> digit_char a = digit_char b -> a = b.
Proof.
  intros Ha Hb Heq.
  assert (Hn : forall x, 0 <= x < 10 -> nat_of_ascii (digit_char x) = (48 + Z.to_nat x)%nat).
  { intros x Hx. unfold digit_char. apply nat_ascii_embedding. lia. }
  apply (f_equal nat_of_ascii) in Heq. rewrite (Hn a Ha), (Hn b Hb) in Heq. lia.
Qed.

Lemma pad_inj (w : nat) : forall n n',
  0 <= n < 10 ^ Z.of_nat w -> 0 <= n' < 10 ^ Z.of_nat w -> pad w n = pad w n' -> n = n'.
Proof.
  induction w as [ | w IH]; intros n n' Hn Hn' Heq.
  - simpl in Hn, Hn'. lia.
  - rewrite Nat2Z.inj_succ, Z.pow_succ_r in Hn, Hn' by lia.
    simpl in Heq. apply append_inv in Heq as [Hhi Hlo]; [ | now rewrite !pad_length].
    injection Hlo as Hlo.
    pose proof (Z.div_mod n 10 ltac:(lia)) as En.
    pose proof (Z.div_mod n' 10 ltac:(lia)) as En'.
    pose proof (Z.mod_pos_bound n 10 ltac:(lia)) as Bn.
    pose proof (Z.mod_pos_bound n' 10 ltac:(lia)) as Bn'.
    apply digit_char_inj in Hlo; [ | lia | lia].
    apply IH in Hhi; [lia | | ].
    + split; [apply Z.div_pos; lia | apply Z.div_lt_upper_bound; lia].
    + split; [apply Z.div_pos; lia | apply Z.div_lt_upper_bound; lia].
Qed.

Lemma fmt_year_four_digits (y : Z) : 1000 <= y -> fmt_year y = pad 4 y.
Proof.
  intros Hy. unfold fmt_year. destruct (Z.ltb_spec y 1000); [lia | reflexivity].
Qed.

(** X20.  For a year of four digits and fields that fit their widths, the
    stored timestamp text has 19 characters and determines the date and the
    time of day: two such datetimes are written as the same text only when
    their local fields are the same, so comparing the stored texts compares
    the datetimes. *)
Theorem strftime_injective (dt dt' : datetime) :
  (fits_format dt -> String.length (strftime dt) = 19%nat)
  /\ (fits_format dt -> fits_format dt' ->
      strftime dt = strftime dt' -> naive dt = naive dt').
Proof.
  split.
  - intros (Hy & _). unfold strftime.
    rewrite (fmt_year_four_digits _ (proj1 Hy)), !length_append, !pad_length. reflexivity.
  - intros (Hy & Hmo & Hd & Hh & Hmi & Hs) (Hy' & Hmo' & Hd' & Hh' & Hmi' & Hs') Heq.
    unfold strftime in Heq.
    destruct dt as [[[y mo d] [h mi s]] i]. destruct dt' as [[[y' mo' d'] [h' mi' s']] i'].
    cbn [naive dt_date dt_time year month day hour minute second] in *.
    rewrite (fmt_year_four_digits _ (proj1 Hy)), (fmt_year_four_digits _ (proj1 Hy')) in Heq.
    apply append_inv in Heq as [E1 Heq]; [ | now rewrite !pad_length].
    apply append_inv in Heq as [_ Heq]; [ | reflexivity].
    apply append_inv in Heq as [E2 Heq]; [ | now rewrite !pad_length].
    apply append_inv in Heq as [_ Heq]; [ | reflexivity].
    apply append_inv in Heq as [E3 Heq]; [ | now rewrite !pad_length].
    apply append_inv in Heq as [_ Heq]; [ | reflexivity].
    apply append_inv in Heq as [E4 Heq]; [ | now rewrite !pad_length].
    apply append_inv in Heq as [_ Heq]; [ | reflexivity].
    apply append_inv in Heq as [E5 E6]; [ | now rewrite !pad_length].
    apply append_inv in E6 as [_ E6]; [ | reflexivity].
    apply (pad_inj 4) in E1; [ | simpl; lia | simpl; lia].
    apply (pad_inj 2) in E2; [ | exact Hmo | exact Hmo'].
    apply (pad_inj 2) in E3; [ | exact Hd | exact Hd'].
    apply (pad_inj 2) in E4; [ | exact Hh | exact Hh'].
    apply (pad_inj 2) in E5; [ | exact Hmi | exact Hmi'].
    apply (pad_inj 2) in E6; [ | exact Hs | exact Hs'].
    subst. reflexivity.
Qed.

Lemma strftime_injective_witness :
  String.length (strftime window_start) = 19%nat
  /\ naive window_start = naive {| naive := naive (at_time 2026 1 1 9 0); instant := 0 |}
  /\ strftime (at_time 999 1 1 9 0) = "999-01-01 09:00:00"%string.
Proof.
  destruct (strftime_injective window_start
              {| naive := naive (at_time 2026 1 1 9 0); instant := 0 |}) as (Hlen & Hinj).
  split; [apply Hlen; unfold fits_format; simpl; lia | ].
  split; [ | reflexivity].
  apply Hinj; [unfold fits_format; simpl; lia | unfold fits_format; simpl; lia | reflexivity].
Defined.

(** ** The participation figures *)

Local Open Scope nat_scope.

Lemma filter_fst_length {A B} (f : A -> bool) (l : list (A * B)) :
  length (List.filter (fun e => f (fst e)) l) = length (List.filter f (map fst l)).
Proof.
  induction l as [ | e l IH]; simpl; [reflexivity | ].
  destruct (f (fst e)); simpl; now rewrite IH.
Qed.

Lemma filter_split_length {A} (f : A -> bool) (l : list A) :
  length (List.filter f l) + length (List.filter (fun x => negb (f x)) l) = length l.
Proof.
  induction l as [ | x l IH]; simpl; [reflexivity | ].
  destruct (f x); simpl; lia.
Qed.

(** X21.  When every response was stored under the phone of a roster row
    (and each table keeps its phones distinct), the "Not Voted" figure is
    the number of rows of the not-voted export and is not negative; and
    when every response is one of the three options of the form, the three
    counts of the summary add up to the number of responses. *)
Theorem participation_figures (d : db) :
  (List.NoDup (map v_phone (poll_results d)) ->
   List.NoDup (map fst (employees d)) ->
   (forall v, In v (poll_results d) -> In (v_phone v) (map fst (employees d))) ->
   total_not_voted d = Z.of_nat (length (not_voted_df d)))
  /\ ((forall v, In v (poll_results d) -> In (v_response v) options) ->
      count_response d "I am okay and safe."
      + count_response d "I am stuck but help not needed."
      + count_response d "I am stuck and help is needed." = total_voted d).
Proof.
  split.
  - intros HV HE Hsub.
    unfold total_not_voted, not_voted_df, total_voted, get_total_employees.
    set (V := map v_phone (poll_results d)) in *. set (E := map fst (employees d)) in *.
    set (voted := fun p => existsb (String.eqb p) V).
    assert (Hlen : length (List.filter (fun e => negb (existsb (String.eqb (fst e)) V))
                             (employees d))
                   = length (List.filter (fun p => negb (voted p)) E))
      by apply (filter_fst_length (fun p => negb (voted p))).
    rewrite Hlen.
    pose proof (filter_split_length voted E) as Hsplit.
    assert (Hperm : Permutation (List.filter voted E) V).
    { apply Permutation.NoDup_Permutation; [apply List.NoDup_filter, HE | exact HV | ].
      intros p. rewrite filter_In. unfold voted. rewrite existsb_exists. split.
      - intros (_ & q & Hq & Heq). apply String.eqb_eq in Heq. now subst q.
      - intros Hp. split.
        + subst V. apply in_map_iff in Hp as (v & <- & Hv). apply Hsub, Hv.
        + exists p. split; [exact Hp | apply String.eqb_refl]. }
    apply Permutation.Permutation_length in Hperm.
    assert (HlenV : length V = length (poll_results d)) by (subst V; apply length_map).
    assert (HlenE : length E = length (employees d)) by (subst E; apply length_map).
    lia.
  - intros Hopt. unfold count_response, total_voted.
    induction (poll_results d) as [ | v l IH]; [reflexivity | ].
    assert (IH' := IH (fun v' Hv' => Hopt v' (or_intror Hv'))).
    destruct (Hopt v (or_introl eq_refl)) as [Hr | [Hr | [Hr | []]]];
      simpl; rewrite <- Hr; simpl; lia.
Qed.

Lemma participation_figures_witness :
  total_not_voted one_response = 1%Z
  /\ map fst (not_voted_df one_response) = ["03211112222"].
Proof.
  split; [ | reflexivity].
  rewrite (proj1 (participation_figures one_response)); [reflexivity | | | ].
  - repeat constructor. intros [].
  - repeat constructor; simpl; intuition discriminate.
  - intros v [<- | []]. left. reflexivity.
Defined.

(** ** Outcomes of the vote screen *)


